(** * adonis-cqrs: command/query dispatch pipeline

    A shallow embedding of the package:
    the Result model (services/result.ts), the error classes
    (services/errors.ts), the command and query markers
    (services/command.ts, services/query.ts), the behaviors
    (services/behaviors.ts), the two buses (services/command_bus.ts,
    services/query_bus.ts), the handler base classes
    (services/handler_base.ts) and, of the provider
    (services/cqrs_provider.ts), the buses it builds, the naming of
    discovered handlers and the directory scan.

    Asynchronous functions are modelled in a state-and-exception monad:
    a computation takes the world (console, clock, application state) and
    gives back either a returned value or a thrown value, with the new
    world.  A rejected promise and a synchronous throw inside an [async]
    function are the same outcome, [Raised].

    What the package takes from outside is a parameter of the code that
    uses it: the database and cache modules of the peer packages, the
    properties and the JSON text of a message, the text of a number,
    [join] of node:path, the directory tree, and the registration of one
    discovered file. *)

From Stdlib Require Import ZArith Ascii String List Lia.
From stdpp Require Import base gmap strings list pretty.
Import ListNotations.

Local Open Scope string_scope.

(* ===================================================================== *)
(** ** JavaScript values that can be thrown *)
(* ===================================================================== *)

Module Js.

(** An instance of [Error] or of one of its subclasses.  The subclasses
    of services/errors.ts set [name] in their constructors. *)
Record Error := mkError { name : string; message : string }.

(** Values that are not [Error] instances ([throw 'x'], [throw 42], ...). *)
Inductive Value :=
  | VUndefined
  | VNull
  | VBool (b : bool)
  | VNumber (z : Z)
  | VString (s : string).

(** Anything a [throw] statement can carry. *)
Inductive Thrown :=
  | ThrownError (e : Error)
  | ThrownValue (v : Value).

(** [new Error(msg)] *)
Definition new_Error (msg : string) : Error :=
  {| name := "Error"; message := msg |}.

(** [error instanceof Error] *)
Definition instanceof_Error (t : Thrown) : bool :=
  match t with
  | ThrownError _ => true
  | ThrownValue _ => false
  end.

(** [Array.prototype.join] on a [string[]]. *)
Definition join (sep : string) (l : list string) : string :=
  String.concat sep l.

End Js.

(* ===================================================================== *)
(** ** Effects: world, outcomes, the monad of async code *)
(* ===================================================================== *)

Module Eff.

Inductive Level := LevelLog | LevelError.

(** Second argument of a console call. *)
Inductive LogArg :=
  | ArgNone
  | ArgSubject (constructorName : string)   (* the command or query object *)
  | ArgErrors (errors : list string)
  | ArgThrown (error : Js.Thrown).

Record LogLine := mkLine { level : Level; text : string; arg : LogArg }.

(** The mutable environment of a dispatch: the console, the value
    [Date.now()] reads, and the state [S] of the application (whatever
    handlers, behaviors and validators read and write). *)
Record World (S : Type) := mkWorld {
  console : list LogLine;
  clock : Z;
  app : S
}.
Arguments mkWorld {S} _ _ _.
Arguments console {S} _.
Arguments clock {S} _.
Arguments app {S} _.

Inductive Outcome (A : Type) :=
  | Returned (a : A)
  | Raised (t : Js.Thrown).
Arguments Returned {A} _.
Arguments Raised {A} _.

Definition M (S A : Type) : Type := World S -> Outcome A * World S.

Section Ops.
Context {S : Type}.

Definition ret {A} (a : A) : M S A := fun w => (Returned a, w).

Definition throw {A} (t : Js.Thrown) : M S A := fun w => (Raised t, w).

Definition bind {A B} (m : M S A) (k : A -> M S B) : M S B :=
  fun w =>
    match m w with
    | (Returned a, w') => k a w'
    | (Raised t, w') => (Raised t, w')
    end.

(** [try { m } catch (error) { h error }] *)
Definition try_catch {A} (m : M S A) (h : Js.Thrown -> M S A) : M S A :=
  fun w =>
    match m w with
    | (Returned a, w') => (Returned a, w')
    | (Raised t, w') => h t w'
    end.

(** [Date.now()] *)
Definition now : M S Z := fun w => (Returned (clock w), w).

Definition print (lv : Level) (msg : string) (a : LogArg) : M S unit :=
  fun w =>
    (Returned tt,
     {| console := console w ++ [mkLine lv msg a];
        clock := clock w;
        app := app w |}).

(** [console.log(msg, a)] and [console.error(msg, a)] *)
Definition console_log := print LevelLog.
Definition console_error := print LevelError.

(** Writing the application state. *)
Definition modify_app (f : S -> S) : M S unit :=
  fun w =>
    (Returned tt,
     {| console := console w; clock := clock w; app := f (app w) |}).

(** The computation returns (the promise is fulfilled) from [w]. *)
Definition returns {A} (m : M S A) (w : World S) : Prop :=
  exists a w', m w = (Returned a, w').

(** The computation raises [t] (the promise is rejected with [t]). *)
Definition raises {A} (m : M S A) (t : Js.Thrown) (w : World S) : Prop :=
  exists w', m w = (Raised t, w').

End Ops.

Module Notations.
Notation "'let!' x ':=' m 'in' k" := (bind m (fun x => k))
  (at level 10, x pattern, m at level 100, k at level 200).
Notation "m ';;!' k" := (bind m (fun _ => k))
  (at level 100, k at level 200, right associativity).
End Notations.

End Eff.

Import Eff.Notations.

(* ===================================================================== *)
(** ** services/result.ts *)
(* ===================================================================== *)

Module Result.

(** What the code asks of the generic [TError]: [Array.isArray] and
    [String(...)]. *)
Class ErrorShape (E : Type) := {
  as_array : E -> option (list string);   (* Some l when Array.isArray *)
  to_String : E -> string                 (* String(error) *)
}.

(** The default [TError = string[]]; [String] of an array joins with a
    comma. *)
#[global] Instance string_array_shape : ErrorShape (list string) := {
  as_array l := Some l;
  to_String l := Js.join "," l
}.

(** A single string used as the error. *)
#[global] Instance string_shape : ErrorShape string := {
  as_array _ := None;
  to_String s := s
}.

(** [type Result<TSuccess, TError> = Ok<TSuccess, TError> | Err<TError>] *)
Inductive Result (TSuccess TError : Type) :=
  | Ok (value : TSuccess)
  | Err (error : TError).
Arguments Ok {TSuccess TError} _.
Arguments Err {TSuccess TError} _.

Section Methods.
Context {S T E : Type} `{ErrorShape E}.

Definition isOk (r : Result T E) : bool :=
  match r with Ok _ => true | Err _ => false end.

Definition isErr (r : Result T E) : bool :=
  match r with Ok _ => false | Err _ => true end.

(** [Ok.map] builds [new Ok(fn(this.value))]; [Err.map] returns [this].
    The callback is arbitrary code: it may touch the world and throw. *)
Definition map {U} (fn : T -> Eff.M S U) (r : Result T E)
  : Eff.M S (Result U E) :=
  match r with
  | Ok value => let! u := fn value in Eff.ret (Ok u)
  | Err error => Eff.ret (Err error)
  end.

Definition unwrapOr (r : Result T E) (defaultValue : T) : T :=
  match r with
  | Ok value => value
  | Err _ => defaultValue
  end.

(** [Err.getErrors], a method of the [Err] class only. *)
Definition getErrors (error : E) : list string :=
  match as_array error with
  | Some l => l
  | None => [to_String error]
  end.

(** [Err.unwrap], on the error the [Err] holds. *)
Definition Err_unwrap (error : E) : Js.Error :=
  match as_array error with
  | Some l => Js.new_Error (Js.join ", " l)
  | None => Js.new_Error (to_String error)
  end.

Definition unwrap (r : Result T E) : Eff.Outcome T :=
  match r with
  | Ok value => Eff.Returned value
  | Err error => Eff.Raised (Js.ThrownError (Err_unwrap error))
  end.

End Methods.

(** The helpers work on the default error type. *)
Definition ok {T} (value : T) : Result T (list string) := Ok value.
Definition err {T} (errors : list string) : Result T (list string) :=
  Err errors.
Definition errMessage {T} (message : string) : Result T (list string) :=
  Err [message].

End Result.

(* ===================================================================== *)
(** ** services/errors.ts *)
(* ===================================================================== *)

Module Errors.

(** [class CQRError extends Error] *)
Definition CQRError (message : string) : Js.Error :=
  {| Js.name := "CQRError"; Js.message := message |}.

(** [class HandlerNotFoundError extends CQRError]: the super constructor
    receives the message, then [name] is overwritten. *)
Definition HandlerNotFoundError (type identifier : string) : Js.Error :=
  {| Js.name := "HandlerNotFoundError";
     Js.message :=
       Js.message
         (CQRError ("No handler registered for " +:+ type +:+ ": " +:+ identifier)) |}.

End Errors.

(* ===================================================================== *)
(** ** services/command.ts and services/query.ts *)
(* ===================================================================== *)

Module Command.

(** What a [validate()] method resolves to when it is truthy:
    [{ isValid, errors? }].  [isValid] is the truthiness of the property;
    [errors = None] is an absent (falsy) [errors] property. *)
Record Validation := mkValidation {
  isValid : bool;
  errors : option (list string)
}.

(** A command object: its class name ([command.constructor.name]), its
    own fields, and the [validate] method when it has one.  The method
    resolves to [None] for a falsy value. *)
Record ICommand (S P : Type) := mkCommand {
  constructor_name : string;
  fields : P;
  validate : option (Eff.M S (option Validation))
}.
Arguments mkCommand {S P} _ _ _.
Arguments constructor_name {S P} _.
Arguments fields {S P} _.
Arguments validate {S P} _.

(** [interface ICommandHandler]: the [handle] method. *)
Definition ICommandHandler (S P T : Type) : Type :=
  ICommand S P -> Eff.M S (Result.Result T (list string)).

End Command.

Module Query.

Record IQuery (P : Type) := mkQuery {
  constructor_name : string;
  fields : P
}.
Arguments mkQuery {P} _ _.
Arguments constructor_name {P} _.
Arguments fields {P} _.

(** [interface IQueryHandler]: the [handle] method. *)
Definition IQueryHandler (S P T : Type) : Type :=
  IQuery P -> Eff.M S T.

End Query.

(* ===================================================================== *)
(** ** services/behaviors.ts *)
(* ===================================================================== *)

Module Behaviors.

(** [interface CommandBehavior]: the [handle] method. *)
Definition CommandBehavior (S P T : Type) : Type :=
  Command.ICommand S P ->
  (Command.ICommand S P -> Eff.M S (Result.Result T (list string))) ->
  Eff.M S (Result.Result T (list string)).

(** [interface QueryBehavior]: the [handle] method. *)
Definition QueryBehavior (S P T : Type) : Type :=
  Query.IQuery P -> (Query.IQuery P -> Eff.M S T) -> Eff.M S T.

(** The text after the name in the log lines: [ (${duration}ms)]. *)
Definition timing (duration : Z) : string :=
  " (" +:+ pretty duration +:+ "ms)".

Section Builtin.
Context {S P T : Type}.

Definition LoggingCommandBehavior : CommandBehavior S P T :=
  fun command next =>
    let commandName := Command.constructor_name command in
    Eff.console_log ("[Command] Executing: " +:+ commandName)
                    (Eff.ArgSubject commandName) ;;!
    let! startTime := Eff.now in
    Eff.try_catch
      (let! result := next command in
       let! endTime := Eff.now in
       let duration := (endTime - startTime)%Z in
       (if Result.isOk result
        then Eff.console_log
               ("[Command] Completed: " +:+ commandName +:+ timing duration)
               Eff.ArgNone
        else Eff.console_log
               ("[Command] Failed: " +:+ commandName +:+ timing duration)
               (Eff.ArgErrors
                  (match result with
                   | Result.Err error => Result.getErrors error
                   | Result.Ok _ => []
                   end))) ;;!
       Eff.ret result)
      (fun error =>
         let! endTime := Eff.now in
         let duration := (endTime - startTime)%Z in
         Eff.console_error
           ("[Command] Failed: " +:+ commandName +:+ timing duration)
           (Eff.ArgThrown error) ;;!
         Eff.ret
           (Result.err
              [match error with
               | Js.ThrownError e => Js.message e
               | Js.ThrownValue _ => "Unknown error"
               end])).

Definition LoggingQueryBehavior : QueryBehavior S P T :=
  fun query next =>
    let queryName := Query.constructor_name query in
    Eff.console_log ("[Query] Executing: " +:+ queryName)
                    (Eff.ArgSubject queryName) ;;!
    let! startTime := Eff.now in
    Eff.try_catch
      (let! result := next query in
       let! endTime := Eff.now in
       let duration := (endTime - startTime)%Z in
       Eff.console_log
         ("[Query] Completed: " +:+ queryName +:+ timing duration)
         Eff.ArgNone ;;!
       Eff.ret result)
      (fun error =>
         let! endTime := Eff.now in
         let duration := (endTime - startTime)%Z in
         Eff.console_error
           ("[Query] Failed: " +:+ queryName +:+ timing duration)
           (Eff.ArgThrown error) ;;!
         Eff.throw error).

(** [validation.errors || ['Validation failed']]: an array, even an
    empty one, is truthy. *)
Definition errors_or_default (v : Command.Validation) : list string :=
  match Command.errors v with
  | Some errors => errors
  | None => ["Validation failed"]
  end.

Definition ValidationCommandBehavior : CommandBehavior S P T :=
  fun command next =>
    match Command.validate command with
    | Some validate =>
        let! validation := validate in
        match validation with
        | Some v =>
            if negb (Command.isValid v)
            then Eff.ret (Result.err (errors_or_default v))
            else next command
        | None => next command
        end
    | None => next command
    end.

End Builtin.

End Behaviors.

(* ===================================================================== *)
(** ** services/command_bus.ts *)
(* ===================================================================== *)

Module CommandBus.

Section Bus.
Context {S P T : Type}.

Local Abbreviation Handler := (Command.ICommandHandler S P T).
Local Abbreviation Behavior := (Behaviors.CommandBehavior S P T).
Local Abbreviation Stage :=
  (Command.ICommand S P -> Eff.M S (Result.Result T (list string))).

(** [private handlers = new Map<string, unknown>()] and
    [private behaviors: CommandBehavior[] = []] *)
Record CommandBus := mkBus {
  handlers : gmap string Handler;
  behaviors : list Behavior
}.

(** [new CommandBus()] *)
Definition new : CommandBus := {| handlers := ∅; behaviors := [] |}.

(** [this.handlers.set(commandIdentifier, handler)] *)
Definition register (commandIdentifier : string) (handler : Handler)
           (bus : CommandBus) : CommandBus :=
  {| handlers := <[commandIdentifier := handler]> (handlers bus);
     behaviors := behaviors bus |}.

(** [this.behaviors.push(behavior)] *)
Definition use (behavior : Behavior) (bus : CommandBus) : CommandBus :=
  {| handlers := handlers bus;
     behaviors := behaviors bus ++ [behavior] |}.

(** The stage the pipeline starts with: the handler under try/catch. *)
Definition guarded (handler : Handler) : Stage :=
  fun cmd =>
    Eff.try_catch
      (handler cmd)
      (fun error =>
         Eff.ret
           (Result.err
              [match error with
               | Js.ThrownError e => Js.message e
               | Js.ThrownValue _ => "Command execution failed"
               end])).

(** Calling [behavior.handle] when [behavior] is [undefined]. *)
Definition undefined_behavior : Js.Error :=
  {| Js.name := "TypeError";
     Js.message := "Cannot read properties of undefined (reading 'handle')" |}.

(** [for (let i = this.behaviors.length - 1; i >= 0; i--)]: [count]
    is [i + 1], the number of iterations still to run. *)
Fixpoint wrap (bs : list Behavior) (count : nat) (pipeline : Stage) : Stage :=
  match count with
  | O => pipeline
  | Datatypes.S i =>
      let next := pipeline in
      match bs !! i with
      | Some behavior => wrap bs i (fun cmd => behavior cmd next)
      | None =>
          wrap bs i (fun _ => Eff.throw (Js.ThrownError undefined_behavior))
      end
  end.

Definition buildPipeline (bus : CommandBus) (_command : Command.ICommand S P)
           (handler : Handler) : Stage :=
  wrap (behaviors bus) (length (behaviors bus)) (guarded handler).

Definition execute (bus : CommandBus) (command : Command.ICommand S P)
  : Eff.M S (Result.Result T (list string)) :=
  let commandIdentifier := Command.constructor_name command in
  match handlers bus !! commandIdentifier with
  | None =>
      Eff.ret
        (Result.err
           ["No handler registered for command: " +:+ commandIdentifier])
  | Some handler =>
      let pipeline := buildPipeline bus command handler in
      pipeline command
  end.

End Bus.

Arguments CommandBus : clear implicits.

End CommandBus.

(* ===================================================================== *)
(** ** services/query_bus.ts *)
(* ===================================================================== *)

Module QueryBus.

Section Bus.
Context {S P T : Type}.

Local Abbreviation Handler := (Query.IQueryHandler S P T).
Local Abbreviation Behavior := (Behaviors.QueryBehavior S P T).
Local Abbreviation Stage := (Query.IQuery P -> Eff.M S T).

Record QueryBus := mkBus {
  handlers : gmap string Handler;
  behaviors : list Behavior
}.

(** [new QueryBus()] *)
Definition new : QueryBus := {| handlers := ∅; behaviors := [] |}.

(** [this.handlers.set(queryIdentifier, handler)] *)
Definition register (queryIdentifier : string) (handler : Handler)
           (bus : QueryBus) : QueryBus :=
  {| handlers := <[queryIdentifier := handler]> (handlers bus);
     behaviors := behaviors bus |}.

(** [this.behaviors.push(behavior)] *)
Definition use (behavior : Behavior) (bus : QueryBus) : QueryBus :=
  {| handlers := handlers bus;
     behaviors := behaviors bus ++ [behavior] |}.

(** The stage the pipeline starts with: [(q) => handler.handle(q)]. *)
Definition direct (handler : Handler) : Stage :=
  fun q => handler q.

Definition undefined_behavior : Js.Error :=
  {| Js.name := "TypeError";
     Js.message := "Cannot read properties of undefined (reading 'handle')" |}.

(** [for (let i = this.behaviors.length - 1; i >= 0; i--)]: [count]
    is [i + 1], the number of iterations still to run. *)
Fixpoint wrap (bs : list Behavior) (count : nat) (pipeline : Stage) : Stage :=
  match count with
  | O => pipeline
  | Datatypes.S i =>
      let next := pipeline in
      match bs !! i with
      | Some behavior => wrap bs i (fun q => behavior q next)
      | None =>
          wrap bs i (fun _ => Eff.throw (Js.ThrownError undefined_behavior))
      end
  end.

Definition buildPipeline (bus : QueryBus) (_query : Query.IQuery P)
           (handler : Handler) : Stage :=
  wrap (behaviors bus) (length (behaviors bus)) (direct handler).

Definition execute (bus : QueryBus) (query : Query.IQuery P) : Eff.M S T :=
  let queryIdentifier := Query.constructor_name query in
  match handlers bus !! queryIdentifier with
  | None =>
      Eff.throw
        (Js.ThrownError (Errors.HandlerNotFoundError "query" queryIdentifier))
  | Some handler =>
      let pipeline := buildPipeline bus query handler in
      pipeline query
  end.

End Bus.

Arguments QueryBus : clear implicits.

End QueryBus.

(* ===================================================================== *)
(** ** Objects of the unit tests (tests/unit) *)
(* ===================================================================== *)

Module Fixtures.

(** The application state of the tests: a list that behaviors and
    handlers push to. *)
Definition Journal : Type := list string.

Definition world0 : Eff.World Journal :=
  {| Eff.console := []; Eff.clock := 0%Z; Eff.app := [] |}.

Definition push (entry : string) : Eff.M Journal unit :=
  Eff.modify_app (fun journal : Journal => (journal ++ [entry])%list).

(** [class TestCommand] of behaviors.spec.ts, with its [validate]. *)
Definition TestCommand (value : Z) : Command.ICommand Journal Z :=
  {| Command.constructor_name := "TestCommand";
     Command.fields := value;
     Command.validate :=
       Some
         (if (value <? 0)%Z
          then Eff.ret
                 (Some {| Command.isValid := false;
                          Command.errors := Some ["Value must be positive"] |})
          else Eff.ret
                 (Some {| Command.isValid := true;
                          Command.errors := None |})) |}.

(** A command of a class nobody registered a handler for. *)
Definition Foo : Command.ICommand Journal Z :=
  {| Command.constructor_name := "Foo";
     Command.fields := 0%Z;
     Command.validate := None |}.

(** A command whose validator throws. *)
Definition BrokenCommand : Command.ICommand Journal Z :=
  {| Command.constructor_name := "TestCommand";
     Command.fields := 0%Z;
     Command.validate :=
       Some (Eff.throw (Js.ThrownError (Js.new_Error "schema missing"))) |}.

(** [class TestCommandHandler]: [ok(command.value * 2)], recording the
    call. *)
Definition TestCommandHandler : Command.ICommandHandler Journal Z Z :=
  fun command =>
    push "H" ;;! Eff.ret (Result.ok (Command.fields command * 2)%Z).

(** [class FailingHandler]: [err(['Handler failed'])]. *)
Definition FailingHandler : Command.ICommandHandler Journal Z Z :=
  fun _ => Eff.ret (Result.err ["Handler failed"]).

(** [class ThrowingHandler] of command.spec.ts. *)
Definition ThrowingHandler : Command.ICommandHandler Journal Z Z :=
  fun _ => Eff.throw (Js.ThrownError (Js.new_Error "Unexpected error")).

(** A handler that throws a string instead of an [Error]. *)
Definition StringThrowingHandler : Command.ICommandHandler Journal Z Z :=
  fun _ => Eff.throw (Js.ThrownValue (Js.VString "boom")).

(** A behavior that records its way in and its way out. *)
Definition RecordingCommandBehavior (label : string)
  : Behaviors.CommandBehavior Journal Z Z :=
  fun command next =>
    push (label +:+ ":in") ;;!
    let! result := next command in
    push (label +:+ ":out") ;;!
    Eff.ret result.

(** A behavior that throws before calling [next]. *)
Definition ThrowingCommandBehavior : Behaviors.CommandBehavior Journal Z Z :=
  fun _ _ => Eff.throw (Js.ThrownError (Js.new_Error "behavior failed")).

(** [class TestQuery] and [class TestQueryHandler] of behaviors.spec.ts. *)
Definition TestQuery (value : Z) : Query.IQuery Z :=
  {| Query.constructor_name := "TestQuery"; Query.fields := value |}.

Definition FooQuery : Query.IQuery Z :=
  {| Query.constructor_name := "Foo"; Query.fields := 0%Z |}.

Definition TestQueryHandler : Query.IQueryHandler Journal Z Z :=
  fun query => push "H" ;;! Eff.ret (Query.fields query * 3)%Z.

(** A query handler that throws [new Error('boom')]. *)
Definition ThrowingQueryHandler : Query.IQueryHandler Journal Z Z :=
  fun _ => Eff.throw (Js.ThrownError (Js.new_Error "boom")).

Definition RecordingQueryBehavior (label : string)
  : Behaviors.QueryBehavior Journal Z Z :=
  fun query next =>
    push (label +:+ ":in") ;;!
    let! result := next query in
    push (label +:+ ":out") ;;!
    Eff.ret result.

(** A query behavior that swallows the fault of [next]. *)
Definition SwallowingQueryBehavior : Behaviors.QueryBehavior Journal Z Z :=
  fun query next => Eff.try_catch (next query) (fun _ => Eff.ret 0%Z).

(** Buses of the tests. *)
Definition validating_bus : CommandBus.CommandBus Journal Z Z :=
  CommandBus.register "TestCommand" TestCommandHandler
    (CommandBus.use Behaviors.ValidationCommandBehavior CommandBus.new).

Definition logging_throwing_bus : CommandBus.CommandBus Journal Z Z :=
  CommandBus.register "TestCommand" ThrowingHandler
    (CommandBus.use Behaviors.LoggingCommandBehavior CommandBus.new).

Definition recording_command_bus : CommandBus.CommandBus Journal Z Z :=
  CommandBus.register "TestCommand" TestCommandHandler
    (CommandBus.use (RecordingCommandBehavior "B")
       (CommandBus.use (RecordingCommandBehavior "A") CommandBus.new)).

Definition recording_query_bus : QueryBus.QueryBus Journal Z Z :=
  QueryBus.register "TestQuery" TestQueryHandler
    (QueryBus.use (RecordingQueryBehavior "B")
       (QueryBus.use (RecordingQueryBehavior "A") QueryBus.new)).


End Fixtures.

(* ===================================================================== *)
(** ** What a bus can ask of the behaviors registered on it *)
(* ===================================================================== *)

Module Contracts.

Section Contracts.
Context {S P T : Type}.

(** A command behavior that raises nothing of its own: it returns
    whenever the rest of the pipeline always returns. *)
Definition quiet (b : Behaviors.CommandBehavior S P T) : Prop :=
  forall command next,
    (forall c w, Eff.returns (next c) w) ->
    forall w, Eff.returns (b command next) w.

(** A query behavior that re-raises: when the rest of the pipeline
    raises [t] on the query, so does the behavior. *)
Definition reraising (b : Behaviors.QueryBehavior S P T) : Prop :=
  forall query next t,
    (forall w, Eff.raises (next query) t w) ->
    forall w, Eff.raises (b query next) t w.

End Contracts.

End Contracts.

(* ===================================================================== *)
(** ** JavaScript string methods used by the naming code *)
(* ===================================================================== *)

Module Str.

(** A string is the sequence of the bytes of its UTF-8 encoding. *)
Definition chars (s : string) : list ascii := String.list_ascii_of_string s.
Definition of_chars (l : list ascii) : string := String.string_of_list_ascii l.

(** [s.endsWith(suffix)] *)
Definition endsWith (s suffix : string) : bool :=
  bool_decide (chars suffix `suffix_of` chars s).

(** [s] without its last [suffix.length] characters. *)
Definition before_suffix (s suffix : string) : string :=
  of_chars (take (length (chars s) - length (chars suffix)) (chars s)).

(** [s.replace(/suffix$/, replacement)], for a suffix of plain letters. *)
Definition replace_suffix (s suffix replacement : string) : string :=
  if endsWith s suffix then before_suffix s suffix +:+ replacement else s.

(** The characters the dot of a regular expression refuses: line feed,
    carriage return, and the line and paragraph separators U+2028 and
    U+2029, which are the bytes E2 80 A8 and E2 80 A9. *)
Definition is_line_terminator (c : ascii) : bool :=
  bool_decide (c = "010"%char) || bool_decide (c = "013"%char).

Fixpoint has_line_terminator (l : list ascii) : bool :=
  match l with
  | [] => false
  | c :: rest =>
      is_line_terminator c
      || match rest with
         | c2 :: c3 :: _ =>
             bool_decide (c = "226"%char)
             && bool_decide (c2 = "128"%char)
             && (bool_decide (c3 = "168"%char) || bool_decide (c3 = "169"%char))
         | _ => false
         end
      || has_line_terminator rest
  end.

(** [s.match(/^(.+)suffix$/)]: the captured group when the match
    succeeds.  The group is greedy and the pattern is anchored at both
    ends, so the group is all of [s] in front of the suffix; it has to be
    non-empty and free of line terminators. *)
Definition match_before_suffix (s suffix : string) : option string :=
  if endsWith s suffix then
    let group := chars (before_suffix s suffix) in
    match group with
    | [] => None
    | _ :: _ =>
        if has_line_terminator group
        then None
        else Some (of_chars group)
    end
  else None.

End Str.

(* ===================================================================== *)
(** ** services/handler_base.ts *)
(* ===================================================================== *)

Module HandlerBase.

(** [CommandHandlerBase.getCommandName], on [this.constructor.name]. *)
Definition getCommandName (constructor_name : string) : string :=
  match Str.match_before_suffix constructor_name "CommandHandler" with
  | Some group => group +:+ "Command"
  | None => constructor_name
  end.

(** [QueryHandlerBase.getQueryName], on [this.constructor.name]. *)
Definition getQueryName (constructor_name : string) : string :=
  match Str.match_before_suffix constructor_name "QueryHandler" with
  | Some group => group +:+ "Query"
  | None => constructor_name
  end.

(** The constructor of [CommandHandlerBase]: the new object, of class
    [constructor_name] and with the method [handle], registers itself. *)
Definition CommandHandlerBase {S P T : Type} (constructor_name : string)
           (handle : Command.ICommandHandler S P T)
           (commandBus : CommandBus.CommandBus S P T)
  : CommandBus.CommandBus S P T :=
  let commandName := getCommandName constructor_name in
  CommandBus.register commandName handle commandBus.

(** The constructor of [QueryHandlerBase]. *)
Definition QueryHandlerBase {S P T : Type} (constructor_name : string)
           (handle : Query.IQueryHandler S P T)
           (queryBus : QueryBus.QueryBus S P T)
  : QueryBus.QueryBus S P T :=
  let queryName := getQueryName constructor_name in
  QueryBus.register queryName handle queryBus.

End HandlerBase.

(* ===================================================================== *)
(** ** services/behaviors.ts: the behaviors that need a peer package *)
(* ===================================================================== *)

Module PeerBehaviors.

(** ['flag' in object && object.flag === false]; the flag is [None] when
    the object has no such property. *)
Definition is_false (flag : option Js.Value) : bool :=
  match flag with
  | Some (Js.VBool false) => true
  | _ => false
  end.

Section Transaction.
Context {S P T : Type}.

(** The default export of [@adonisjs/lucid/services/db], as far as the
    behavior uses it. *)
Record Db := mkDb {
  transaction :
    Eff.M S (Result.Result T (list string)) ->
    Eff.M S (Result.Result T (list string))
}.

(** [await import('@adonisjs/lucid/services/db')] and its [default]; the
    import raises when the package is not installed. *)
Variable import_db : Eff.M S Db.

(** The [useTransaction] property of a command. *)
Variable useTransaction : P -> option Js.Value.

Definition TransactionCommandBehavior : Behaviors.CommandBehavior S P T :=
  fun command next =>
    let! db := import_db in
    if is_false (useTransaction (Command.fields command))
    then next command
    else
      Eff.try_catch
        (let! result := transaction db (next command) in
         Eff.ret result)
        (fun error =>
           Eff.ret
             (Result.err
                [match error with
                 | Js.ThrownError e => Js.message e
                 | Js.ThrownValue _ => "Transaction failed"
                 end])).

End Transaction.

Section Cache.
Context {S P T Number : Type}.

(** The default export of [@adonisjs/cache/services/main], as far as the
    behavior uses it: [get({ key })], which resolves to [None] for
    [null] and to a value for anything else, and
    [set({ key, value, ttl })]. *)
Record Cache := mkCache {
  cache_get : string -> Eff.M S (option T);
  cache_set : string -> T -> string -> Eff.M S unit
}.

(** [await import('@adonisjs/cache/services/main')] and its [default]. *)
Variable import_cache : Eff.M S Cache.

(** The [useCache] property of a query. *)
Variable useCache : P -> option Js.Value.

(** [JSON.stringify(query)] *)
Variable JSON_stringify : Query.IQuery P -> string.

Definition cacheKey (query : Query.IQuery P) : string :=
  "query:" +:+ Query.constructor_name query +:+ ":" +:+ JSON_stringify query.

(** The text of a number in a template literal, [`${n}`]. *)
Variable Number_text : Number -> string.

(** [handle], on an object whose [private ttl: number] is [ttl]. *)
Definition CacheQueryBehavior (ttl : Number) : Behaviors.QueryBehavior S P T :=
  fun query next =>
    if is_false (useCache (Query.fields query))
    then next query
    else
      let! cache := import_cache in
      let key := cacheKey query in
      let! cached := cache_get cache key in
      match cached with
      | Some value =>
          Eff.console_log
            ("[Cache] Hit for: " +:+ Query.constructor_name query)
            Eff.ArgNone ;;!
          Eff.ret value
      | None =>
          let! result := next query in
          cache_set cache key result (Number_text ttl +:+ " seconds") ;;!
          Eff.console_log
            ("[Cache] Miss for: " +:+ Query.constructor_name query)
            Eff.ArgNone ;;!
          Eff.ret result
      end.

End Cache.

End PeerBehaviors.

(* ===================================================================== *)
(** ** services/cqrs_provider.ts *)
(* ===================================================================== *)

Module CQRSProvider.

(** [#isHandlerFile] *)
Definition isHandlerFile (fileName : string) : bool :=
  Str.endsWith fileName "_handler.ts"
  || Str.endsWith fileName "_handler.js"
  || Str.endsWith fileName ".handler.ts"
  || Str.endsWith fileName ".handler.js".

(** Where [#registerHandlerFromFile] registers the instance of a class,
    by the name of the class. *)
Inductive Registration :=
  | OnQueryBus (queryName : string)
  | OnCommandBus (commandName : string)
  | Nowhere.

Definition registration (className : string) : Registration :=
  if Str.endsWith className "QueryHandler"
  then OnQueryBus (Str.replace_suffix className "QueryHandler" "Query")
  else if Str.endsWith className "CommandHandler"
  then OnCommandBus (Str.replace_suffix className "CommandHandler" "Command")
  else Nowhere.

(** What [readdir(directory, { withFileTypes: true })] finds: nothing
    (the call raises), or the entries in order.  An entry has a name and,
    when [isDirectory()] holds, what is below it. *)
Inductive Tree :=
  | Unreadable
  | Listing (files : list Dirent)
with Dirent :=
  | FileEntry (name : string)
  | DirectoryEntry (name : string) (below : Tree).

(** The fault of a failed [readdir]. *)
Definition readdir_error (directory : string) : Js.Error :=
  Js.new_Error ("ENOENT: no such file or directory, scandir '" +:+ directory +:+ "'").

Section Discovery.
Context {S : Type}.

(** [join] of [node:path]. *)
Variable join : string -> string -> string.

(** [this.#registerHandlerFromFile(fullPath, commandBus, queryBus)] *)
Variable registerHandlerFromFile : string -> Eff.M S unit.

(** [#registerHandlersFromDirectory] *)
Fixpoint registerHandlersFromDirectory (directory : string) (tree : Tree)
  : Eff.M S unit :=
  Eff.try_catch
    (match tree with
     | Unreadable => Eff.throw (Js.ThrownError (readdir_error directory))
     | Listing files =>
         (fix each (files : list Dirent) : Eff.M S unit :=
            match files with
            | [] => Eff.ret tt
            | file :: rest =>
                match file with
                | DirectoryEntry name below =>
                    let fullPath := join directory name in
                    if bool_decide (name = "node_modules")
                       || bool_decide (name = "tests")
                    then each rest
                    else
                      registerHandlersFromDirectory fullPath below ;;!
                      each rest
                | FileEntry name =>
                    let fullPath := join directory name in
                    if isHandlerFile name
                    then registerHandlerFromFile fullPath ;;! each rest
                    else each rest
                end
            end) files
     end)
    (fun _ => Eff.ret tt).

End Discovery.

Section Buses.
Context {S P T R : Type}.

Variable import_db : Eff.M S (PeerBehaviors.Db (S := S) (T := T)).
Variable useTransaction : P -> option Js.Value.

(** The factory [register] binds [CommandBus] to. *)
Definition command_bus : CommandBus.CommandBus S P T :=
  let bus := CommandBus.new in
  let bus := CommandBus.use Behaviors.ValidationCommandBehavior bus in
  let bus := CommandBus.use Behaviors.LoggingCommandBehavior bus in
  let bus :=
    CommandBus.use
      (PeerBehaviors.TransactionCommandBehavior import_db useTransaction) bus in
  bus.

(** The factory [register] binds [QueryBus] to. *)
Definition query_bus : QueryBus.QueryBus S P R :=
  let bus := QueryBus.new in
  let bus := QueryBus.use Behaviors.LoggingQueryBehavior bus in
  bus.

End Buses.

End CQRSProvider.

(* ===================================================================== *)
(** ** Worlds with one more console line *)
(* ===================================================================== *)

Module Trace.

(** The world after one console call. *)
Definition with_line {S : Type} (line : Eff.LogLine) (w : Eff.World S)
  : Eff.World S :=
  {| Eff.console := (Eff.console w ++ [line])%list;
     Eff.clock := Eff.clock w;
     Eff.app := Eff.app w |}.

(** The line the logging behaviors start with. *)
Definition executing (kind constructorName : string) : Eff.LogLine :=
  Eff.mkLine Eff.LevelLog
    ("[" +:+ kind +:+ "] Executing: " +:+ constructorName)
    (Eff.ArgSubject constructorName).

End Trace.

(* ===================================================================== *)
(** ** What discovery reaches, as lists and trees *)
(* ===================================================================== *)

Module Discovery.

(** [name === 'node_modules' || name === 'tests'] *)
Definition skipped (name : string) : bool :=
  bool_decide (name = "node_modules") || bool_decide (name = "tests").

Section Paths.

Variable join : string -> string -> string.

(** The full paths of the handler files below [directory], in the order
    of the listings: the files in skipped directories and in directories
    that cannot be read are left out. *)
Fixpoint handler_files (directory : string) (tree : CQRSProvider.Tree)
  : list string :=
  match tree with
  | CQRSProvider.Unreadable => []
  | CQRSProvider.Listing files =>
      (fix each (files : list CQRSProvider.Dirent) : list string :=
         match files with
         | [] => []
         | CQRSProvider.FileEntry name :: rest =>
             if CQRSProvider.isHandlerFile name
             then join directory name :: each rest
             else each rest
         | CQRSProvider.DirectoryEntry name below :: rest =>
             if skipped name
             then each rest
             else (handler_files (join directory name) below ++ each rest)%list
         end) files
  end.

End Paths.

(** A tree without its skipped directories and without the files that
    are not handler files, at every depth. *)
Fixpoint prune (tree : CQRSProvider.Tree) : CQRSProvider.Tree :=
  match tree with
  | CQRSProvider.Unreadable => CQRSProvider.Unreadable
  | CQRSProvider.Listing files =>
      CQRSProvider.Listing
        ((fix each (files : list CQRSProvider.Dirent)
            : list CQRSProvider.Dirent :=
            match files with
            | [] => []
            | CQRSProvider.FileEntry name :: rest =>
                if CQRSProvider.isHandlerFile name
                then CQRSProvider.FileEntry name :: each rest
                else each rest
            | CQRSProvider.DirectoryEntry name below :: rest =>
                if skipped name
                then each rest
                else CQRSProvider.DirectoryEntry name (prune below) :: each rest
            end) files)
  end.

(** One call of the action per path, in order. *)
Definition run_all {S : Type} (action : string -> Eff.M S unit)
           (paths : list string) : Eff.M S unit :=
  foldr (fun path rest => action path ;;! rest) (Eff.ret tt) paths.

End Discovery.

(* ===================================================================== *)
(** ** Sample collaborators: a database, a cache, a directory *)
(* ===================================================================== *)

Module Samples.

(** A database whose transaction scope just runs its body, and one whose
    scope fails. *)
Definition plain_db : PeerBehaviors.Db (S := Fixtures.Journal) (T := Z) :=
  {| PeerBehaviors.transaction := fun body => body |}.

Definition failing_db : PeerBehaviors.Db (S := Fixtures.Journal) (T := Z) :=
  {| PeerBehaviors.transaction :=
       fun _ => Eff.throw (Js.ThrownError (Js.new_Error "deadlock")) |}.

(** The import of a package that is not installed. *)
Definition missing_package {A : Type} (package : string)
  : Eff.M Fixtures.Journal A :=
  Eff.throw
    (Js.ThrownError (Js.new_Error ("Cannot find package '" +:+ package +:+ "'"))).

(** [useTransaction = false] and [useCache = false], as the classes of
    behaviors.spec.ts have them, and objects without the property. *)
Definition flag_false (_ : Z) : option Js.Value := Some (Js.VBool false).
Definition flag_absent (_ : Z) : option Js.Value := None.
Definition flag_zero (_ : Z) : option Js.Value := Some (Js.VNumber 0).

(** A cache that answers [get] with what [stored] holds and records
    every [set] in the journal. *)
Definition journal_cache (stored : option Z)
  : PeerBehaviors.Cache (S := Fixtures.Journal) (T := Z) :=
  {| PeerBehaviors.cache_get := fun _ => Eff.ret stored;
     PeerBehaviors.cache_set :=
       fun key value ttl =>
         Fixtures.push ("set " +:+ key +:+ " = " +:+ pretty value
                          +:+ " for " +:+ ttl) |}.

(** A cache that cannot be written. *)
Definition read_only_cache
  : PeerBehaviors.Cache (S := Fixtures.Journal) (T := Z) :=
  {| PeerBehaviors.cache_get := fun _ => Eff.ret None;
     PeerBehaviors.cache_set :=
       fun _ _ _ =>
         Eff.throw (Js.ThrownError (Js.new_Error "cache is read-only")) |}.

(** Two numbers of seconds, 3600 (what the constructor of the cache
    behavior takes when it is given nothing) and 60, and their texts. *)
Inductive Ttl := Hour | Minute.

Definition ttl_text (ttl : Ttl) : string :=
  match ttl with
  | Hour => "3600"
  | Minute => "60"
  end.

(** The line separator U+2028. *)
Definition line_separator : string :=
  String "226"%char (String "128"%char (String "168"%char "")).

(** A serialisation of the test query. *)
Definition stringify (query : Query.IQuery Z) : string :=
  "{value:" +:+ pretty (Query.fields query) +:+ "}".

(** Path joining and a per-file action that records the path. *)
Definition join (directory name : string) : string :=
  directory +:+ "/" +:+ name.

Definition record_file (fullPath : string) : Eff.M Fixtures.Journal unit :=
  Fixtures.push fullPath.

(** An application directory. *)
Definition application : CQRSProvider.Tree :=
  CQRSProvider.Listing
    [CQRSProvider.DirectoryEntry "commands"
       (CQRSProvider.Listing [CQRSProvider.FileEntry "create_user_command.ts"]);
     CQRSProvider.DirectoryEntry "handlers"
       (CQRSProvider.Listing
          [CQRSProvider.FileEntry "create_user_handler.ts";
           CQRSProvider.FileEntry "get_user.handler.js";
           CQRSProvider.FileEntry "readme.md";
           CQRSProvider.DirectoryEntry "tests"
             (CQRSProvider.Listing
                [CQRSProvider.FileEntry "create_user_handler.ts"]);
           CQRSProvider.DirectoryEntry "locked" CQRSProvider.Unreadable;
           CQRSProvider.FileEntry "delete_user_handler.ts"]);
     CQRSProvider.DirectoryEntry "node_modules"
       (CQRSProvider.Listing [CQRSProvider.FileEntry "x_handler.js"])].

End Samples.

(* ===================================================================== *)
(** * Properties *)
(* ===================================================================== *)

(** ** The Result model *)

Section ResultFacts.
Context {S T E : Type} `{Result.ErrorShape E}.

Lemma isOk_isErr_exclusive (r : Result.Result T E) :
  Result.isOk r = negb (Result.isErr r).
Proof. by destruct r. Qed.

Lemma unwrap_Ok (v : T) : Result.unwrap (E := E) (Result.Ok v) = Eff.Returned v.
Proof. reflexivity. Qed.

Lemma unwrapOr_total (r : Result.Result T E) (d : T) :
  Result.unwrapOr r d = match r with Result.Ok v => v | Result.Err _ => d end.
Proof. by destruct r. Qed.

(** When [map] raises, the fault is the callback's own. *)
Lemma map_raises_only_callback {U} (fn : T -> Eff.M S U) (r : Result.Result T E)
      (w w' : Eff.World S) (t : Js.Thrown) :
  Result.map fn r w = (Eff.Raised t, w') ->
  exists v, r = Result.Ok v /\ fn v w = (Eff.Raised t, w').
Proof.
  destruct r as [v|e]; cbn.
  - intros Hm. exists v. split; [done|].
    unfold Eff.bind in Hm. destruct (fn v w) as [[u|t0] w0]; cbn in Hm.
    + discriminate.
    + congruence.
  - discriminate.
Qed.

End ResultFacts.

(** C7: [map fn] on [Ok v] runs [fn v] and wraps what it returns in [Ok]
    (for a pure [f], the result is [Ok (f v)] in the same world); on
    [Err e] it returns that very [Err e] without running [fn]: whatever
    [fn] would do (write to the world, throw), the world is untouched and
    nothing is raised. *)
Theorem map_Ok_applies_Err_unchanged {S T U E : Type}
        (fn : T -> Eff.M S U) (f : T -> U) (v : T) (e : E) (w : Eff.World S) :
  Result.map (fun x => Eff.ret (f x)) (Result.Ok (TError := E) v) w
    = (Eff.Returned (Result.Ok (f v)), w)
  /\ Result.map fn (Result.Ok (TError := E) v) w
      = match fn v w with
        | (Eff.Returned u, w') => (Eff.Returned (Result.Ok u), w')
        | (Eff.Raised t, w') => (Eff.Raised t, w')
        end
  /\ Result.map fn (Result.Err e) w = (Eff.Returned (Result.Err e), w).
Proof.
  split; [reflexivity|]. split; [|reflexivity].
  unfold Result.map, Eff.bind. by destruct (fn v w) as [[u|t] w'].
Qed.

(** C6, counterexample: the fault [unwrap] raises on [err(['a', 'b'])] is
    not an [UnwrapError]; the package has no such class. *)
Lemma unwrap_fault_is_not_UnwrapError :
  ~ (exists e : Js.Error,
       Result.unwrap (T := Z) (Result.err ["a"; "b"])
         = Eff.Raised (Js.ThrownError e)
       /\ Js.name e = "UnwrapError").
Proof.
  intros (e & Hraise & Hname). cbn in Hraise.
  injection Hraise as <-. discriminate Hname.
Qed.

(** C6, as amended: [unwrap] on [Err errors] raises a plain [Error]
    (name "Error") whose message is the errors joined with ", "; on
    [Ok v] it returns [v].  No other operation of the model raises:
    [isOk], [isErr], [unwrapOr] and [getErrors] are total functions, and
    a fault out of [map] is a fault of the callback, on an [Ok]. *)
Theorem unwrap_raises_plain_Error {S T U : Type}
        (errors : list string) (v : T)
        (fn : T -> Eff.M S U) (r : Result.Result T (list string))
        (w w' : Eff.World S) (t : Js.Thrown) :
  Result.unwrap (T := T) (Result.err errors)
    = Eff.Raised
        (Js.ThrownError
           {| Js.name := "Error"; Js.message := Js.join ", " errors |})
  /\ Result.unwrap (Result.ok v) = Eff.Returned v
  /\ (Result.map fn r w = (Eff.Raised t, w') ->
      exists v', r = Result.Ok v' /\ fn v' w = (Eff.Raised t, w')).
Proof.
  split; [reflexivity|]. split; [reflexivity|].
  apply map_raises_only_callback.
Qed.

Lemma unwrap_raises_plain_Error_witness :
  Result.unwrap (T := Z) (Result.err ["a"; "b"])
    = Eff.Raised (Js.ThrownError {| Js.name := "Error"; Js.message := "a, b" |})
  /\ Result.unwrap (Result.ok 42%Z) = Eff.Returned 42%Z
  /\ exists v' : Z,
      Result.ok 7%Z = Result.Ok v'
      /\ Eff.throw (S := Fixtures.Journal) (A := Z)
           (Js.ThrownValue Js.VNull) Fixtures.world0
         = (Eff.Raised (Js.ThrownValue Js.VNull), Fixtures.world0).
Proof.
  destruct (unwrap_raises_plain_Error
              (S := Fixtures.Journal) (U := Z) ["a"; "b"] 42%Z
              (fun _ => Eff.throw (Js.ThrownValue Js.VNull))
              (Result.ok 7%Z) Fixtures.world0 Fixtures.world0
              (Js.ThrownValue Js.VNull)) as (H1 & H2 & H3).
  split; [exact H1|]. split; [exact H2|].
  destruct (H3 eq_refl) as (v' & Hok & Hfn).
  exists v'. split; [exact Hok|exact Hfn].
Defined.

(** ** The buses *)

(** [use] appends and leaves the registry alone; [register] leaves the
    behaviors alone. *)
Lemma command_use_appends {S P T : Type}
      (bus : CommandBus.CommandBus S P T) A B :
  CommandBus.behaviors (CommandBus.use B (CommandBus.use A bus))
  = (CommandBus.behaviors bus ++ [A; B])%list
  /\ CommandBus.handlers (CommandBus.use B (CommandBus.use A bus))
     = CommandBus.handlers bus.
Proof. cbn. by rewrite <- app_assoc. Qed.

Lemma query_use_appends {S P T : Type}
      (bus : QueryBus.QueryBus S P T) A B :
  QueryBus.behaviors (QueryBus.use B (QueryBus.use A bus))
  = (QueryBus.behaviors bus ++ [A; B])%list
  /\ QueryBus.handlers (QueryBus.use B (QueryBus.use A bus))
     = QueryBus.handlers bus.
Proof. cbn. by rewrite <- app_assoc. Qed.

Lemma register_keeps_behaviors {S P T : Type}
      (cbus : CommandBus.CommandBus S P T) (qbus : QueryBus.QueryBus S P T)
      identifier h g :
  CommandBus.behaviors (CommandBus.register identifier h cbus)
  = CommandBus.behaviors cbus
  /\ QueryBus.behaviors (QueryBus.register identifier g qbus)
     = QueryBus.behaviors qbus.
Proof. done. Qed.

Section CommandBusFacts.
Context {S P T : Type}.

Local Abbreviation CBus := (CommandBus.CommandBus S P T).
Local Abbreviation cstep :=
  (fun (b : Behaviors.CommandBehavior S P T)
       (next : Command.ICommand S P ->
               Eff.M S (Result.Result T (list string))) =>
     fun cmd => b cmd next).

Lemma command_wrap_prefix (pre : list (Behaviors.CommandBehavior S P T)) :
  forall suf pipeline,
    CommandBus.wrap (pre ++ suf) (length pre) pipeline
    = foldr cstep pipeline pre.
Proof.
  induction pre as [|b pre IH] using rev_ind; intros suf pipeline.
  - reflexivity.
  - rewrite length_app, Nat.add_1_r. cbn [CommandBus.wrap].
    rewrite <- app_assoc. cbn [app].
    rewrite list_lookup_middle by reflexivity.
    rewrite IH, foldr_app. reflexivity.
Qed.

(** The loop of [buildPipeline] is a right fold over the behaviors. *)
Lemma command_buildPipeline_fold (bus : CBus) command handler :
  CommandBus.buildPipeline bus command handler
  = foldr cstep (CommandBus.guarded handler) (CommandBus.behaviors bus).
Proof.
  unfold CommandBus.buildPipeline.
  rewrite <- (app_nil_r (CommandBus.behaviors bus)) at 1.
  apply command_wrap_prefix.
Qed.

Lemma command_execute_registered (bus : CBus) command handler :
  CommandBus.handlers bus !! Command.constructor_name command = Some handler ->
  CommandBus.execute bus command
  = foldr cstep (CommandBus.guarded handler) (CommandBus.behaviors bus) command.
Proof.
  intros Hh. unfold CommandBus.execute. rewrite Hh.
  by rewrite command_buildPipeline_fold.
Qed.

(** The guarded stage returns in every world. *)
Lemma guarded_returns handler (command : Command.ICommand S P) w :
  Eff.returns (CommandBus.guarded (T := T) handler command) w.
Proof.
  unfold Eff.returns, CommandBus.guarded, Eff.try_catch.
  destruct (handler command w) as [[r|t] w']; cbn; eauto.
Qed.

Lemma guarded_Error handler (command : Command.ICommand S P) w w' e :
  handler command w = (Eff.Raised (Js.ThrownError e), w') ->
  CommandBus.guarded (T := T) handler command w
  = (Eff.Returned (Result.err [Js.message e]), w').
Proof. intros Hh. unfold CommandBus.guarded, Eff.try_catch. by rewrite Hh. Qed.

Lemma guarded_non_Error handler (command : Command.ICommand S P) w w' t :
  handler command w = (Eff.Raised t, w') ->
  Js.instanceof_Error t = false ->
  CommandBus.guarded (T := T) handler command w
  = (Eff.Returned (Result.err ["Command execution failed"]), w').
Proof.
  intros Hh Ht. unfold CommandBus.guarded, Eff.try_catch. rewrite Hh.
  destruct t; [discriminate|reflexivity].
Qed.

Lemma guarded_passes_result handler (command : Command.ICommand S P) w w' r :
  handler command w = (Eff.Returned r, w') ->
  CommandBus.guarded (T := T) handler command w = (Eff.Returned r, w').
Proof. intros Hh. unfold CommandBus.guarded, Eff.try_catch. by rewrite Hh. Qed.

(** A pipeline of quiet behaviors around a stage that always returns
    always returns. *)
Lemma quiet_pipeline_returns bs stage :
  Forall Contracts.quiet bs ->
  (forall c w, Eff.returns (stage c) w) ->
  forall c w, Eff.returns (foldr cstep stage bs c) w.
Proof.
  induction 1 as [|b bs Hb _ IH]; intros Hstage c w; cbn.
  - apply Hstage.
  - apply Hb. intros c' w0. by apply IH.
Qed.

End CommandBusFacts.

Section QueryBusFacts.
Context {S P T : Type}.

Local Abbreviation QBus := (QueryBus.QueryBus S P T).
Local Abbreviation qstep :=
  (fun (b : Behaviors.QueryBehavior S P T)
       (next : Query.IQuery P -> Eff.M S T) =>
     fun q => b q next).

Lemma query_wrap_prefix (pre : list (Behaviors.QueryBehavior S P T)) :
  forall suf pipeline,
    QueryBus.wrap (pre ++ suf) (length pre) pipeline
    = foldr qstep pipeline pre.
Proof.
  induction pre as [|b pre IH] using rev_ind; intros suf pipeline.
  - reflexivity.
  - rewrite length_app, Nat.add_1_r. cbn [QueryBus.wrap].
    rewrite <- app_assoc. cbn [app].
    rewrite list_lookup_middle by reflexivity.
    rewrite IH, foldr_app. reflexivity.
Qed.

Lemma query_buildPipeline_fold (bus : QBus) query handler :
  QueryBus.buildPipeline bus query handler
  = foldr qstep (QueryBus.direct handler) (QueryBus.behaviors bus).
Proof.
  unfold QueryBus.buildPipeline.
  rewrite <- (app_nil_r (QueryBus.behaviors bus)) at 1.
  apply query_wrap_prefix.
Qed.

Lemma query_execute_registered (bus : QBus) query handler :
  QueryBus.handlers bus !! Query.constructor_name query = Some handler ->
  QueryBus.execute bus query
  = foldr qstep (QueryBus.direct handler) (QueryBus.behaviors bus) query.
Proof.
  intros Hh. unfold QueryBus.execute. rewrite Hh.
  by rewrite query_buildPipeline_fold.
Qed.


End QueryBusFacts.

(** ** The built-in logging behaviors *)

Section LoggingFacts.
Context {S P T : Type}.


(** The logging behavior of the command path turns every fault into an
    [Err]; it returns whatever the rest of the pipeline does. *)
Lemma LoggingCommandBehavior_quiet :
  Contracts.quiet (Behaviors.LoggingCommandBehavior (S := S) (P := P) (T := T)).
Proof.
  intros command next _ w.
  unfold Behaviors.LoggingCommandBehavior, Eff.returns.
  unfold Eff.bind at 1. cbn.
  unfold Eff.try_catch, Eff.bind at 1.
  match goal with |- context [next command ?w1] =>
    destruct (next command w1) as [[r|t] w2] end.
  - cbn. destruct (Result.isOk r); cbn; eauto.
  - cbn. eauto.
Qed.

End LoggingFacts.

(** ** Handler resolution *)

(** C3: a command whose identifier has no registered handler makes
    [execute] return [Err(["No handler registered for command: <id>"])]
    as a value, in an unchanged world; nothing is raised. *)
Theorem command_unregistered_is_Err {S P T : Type}
        (bus : CommandBus.CommandBus S P T) (command : Command.ICommand S P)
        (w : Eff.World S) :
  CommandBus.handlers bus !! Command.constructor_name command = None ->
  CommandBus.execute bus command w
  = (Eff.Returned
       (Result.err
          ["No handler registered for command: "
             +:+ Command.constructor_name command]),
     w).
Proof. intros Hnone. unfold CommandBus.execute. by rewrite Hnone. Qed.

Lemma command_unregistered_is_Err_witness :
  CommandBus.execute (T := Z) CommandBus.new Fixtures.Foo Fixtures.world0
  = (Eff.Returned (Result.err ["No handler registered for command: Foo"]),
     Fixtures.world0).
Proof.
  apply (command_unregistered_is_Err CommandBus.new Fixtures.Foo Fixtures.world0).
  reflexivity.
Defined.

(** C4: a query whose identifier has no registered handler makes
    [execute] raise (not return) a [HandlerNotFoundError] whose message
    is "No handler registered for query: <id>". *)
Theorem query_unregistered_raises {S P T : Type}
        (bus : QueryBus.QueryBus S P T) (query : Query.IQuery P)
        (w : Eff.World S) :
  QueryBus.handlers bus !! Query.constructor_name query = None ->
  QueryBus.execute bus query w
  = (Eff.Raised
       (Js.ThrownError
          {| Js.name := "HandlerNotFoundError";
             Js.message :=
               "No handler registered for query: "
                 +:+ Query.constructor_name query |}),
     w).
Proof. intros Hnone. unfold QueryBus.execute. by rewrite Hnone. Qed.

Lemma query_unregistered_raises_witness :
  QueryBus.execute (S := Fixtures.Journal) (T := Z)
    QueryBus.new Fixtures.FooQuery Fixtures.world0
  = (Eff.Raised
       (Js.ThrownError
          {| Js.name := "HandlerNotFoundError";
             Js.message := "No handler registered for query: Foo" |}),
     Fixtures.world0).
Proof.
  apply (query_unregistered_raises QueryBus.new Fixtures.FooQuery Fixtures.world0).
  reflexivity.
Defined.

(** C8: on either bus, registering twice under one identifier leaves the
    bus exactly as registering the second handler alone would: the lookup
    gives the second handler, and the behaviors are untouched.  [register]
    is a total update of the bus; it has no failing outcome. *)
Theorem register_twice_keeps_second {S P T : Type}
        (cbus : CommandBus.CommandBus S P T) (qbus : QueryBus.QueryBus S P T)
        (identifier : string)
        (h1 h2 : Command.ICommandHandler S P T)
        (g1 g2 : Query.IQueryHandler S P T) :
  (CommandBus.handlers
     (CommandBus.register identifier h2
        (CommandBus.register identifier h1 cbus)) !! identifier = Some h2
   /\ CommandBus.register identifier h2 (CommandBus.register identifier h1 cbus)
      = CommandBus.register identifier h2 cbus)
  /\ (QueryBus.handlers
        (QueryBus.register identifier g2
           (QueryBus.register identifier g1 qbus)) !! identifier = Some g2
      /\ QueryBus.register identifier g2 (QueryBus.register identifier g1 qbus)
         = QueryBus.register identifier g2 qbus).
Proof.
  unfold CommandBus.register, QueryBus.register; cbn.
  rewrite !lookup_insert_eq, !insert_insert_eq. done.
Qed.

(** ** The command path *)

(** C10: when the handler throws a value that is not an [Error], the
    innermost stage returns [Err(['Command execution failed'])]; the
    result is the same for every such value, so the thrown value cannot
    be read back from it. *)
Theorem non_Error_throw_gives_fixed_Err {S P T : Type}
        (handler handler' : Command.ICommandHandler S P T)
        (command : Command.ICommand S P)
        (w w' : Eff.World S) (t t' : Js.Thrown) :
  handler command w = (Eff.Raised t, w') ->
  Js.instanceof_Error t = false ->
  handler' command w = (Eff.Raised t', w') ->
  Js.instanceof_Error t' = false ->
  CommandBus.guarded handler command w
  = (Eff.Returned (Result.err ["Command execution failed"]), w')
  /\ CommandBus.guarded handler command w
     = CommandBus.guarded handler' command w.
Proof.
  intros Hh Ht Hh' Ht'.
  rewrite (guarded_non_Error _ _ _ _ _ Hh Ht).
  by rewrite (guarded_non_Error _ _ _ _ _ Hh' Ht').
Qed.

Lemma non_Error_throw_gives_fixed_Err_witness :
  CommandBus.guarded Fixtures.StringThrowingHandler
    (Fixtures.TestCommand 5) Fixtures.world0
  = (Eff.Returned (Result.err ["Command execution failed"]), Fixtures.world0)
  /\ CommandBus.guarded Fixtures.StringThrowingHandler
       (Fixtures.TestCommand 5) Fixtures.world0
     = CommandBus.guarded
         (fun _ => Eff.throw (Js.ThrownValue (Js.VNumber 42)))
         (Fixtures.TestCommand 5) Fixtures.world0.
Proof.
  apply (non_Error_throw_gives_fixed_Err
           Fixtures.StringThrowingHandler
           (fun _ => Eff.throw (Js.ThrownValue (Js.VNumber 42)))
           (Fixtures.TestCommand 5) Fixtures.world0 Fixtures.world0
           (Js.ThrownValue (Js.VString "boom"))
           (Js.ThrownValue (Js.VNumber 42)));
    reflexivity.
Defined.

(** C1, counterexample: the handler of [TestCommand] is registered and
    the validation behavior is in use; a command whose [validate] throws
    makes [execute] raise that fault.  The guard is around the handler
    only, the behavior runs outside of it. *)
Lemma behavior_fault_escapes_execute :
  is_Some (CommandBus.handlers Fixtures.validating_bus
             !! Command.constructor_name Fixtures.BrokenCommand)
  /\ CommandBus.execute Fixtures.validating_bus Fixtures.BrokenCommand
       Fixtures.world0
     = (Eff.Raised (Js.ThrownError (Js.new_Error "schema missing")),
        Fixtures.world0)
  /\ ~ Eff.returns
        (CommandBus.execute Fixtures.validating_bus Fixtures.BrokenCommand)
        Fixtures.world0.
Proof.
  assert (Hrun :
    CommandBus.execute Fixtures.validating_bus Fixtures.BrokenCommand
      Fixtures.world0
    = (Eff.Raised (Js.ThrownError (Js.new_Error "schema missing")),
       Fixtures.world0)) by reflexivity.
  split; [|split].
  - eexists. reflexivity.
  - exact Hrun.
  - intros (r & w' & Hret). rewrite Hrun in Hret. discriminate.
Qed.

(** C1, as amended: for a command with a registered handler, the
    innermost stage returns in every world, and when the handler throws
    an [Error] it returns [Err([message])]; [execute] is that stage when
    no behavior is in use, and [execute] returns in every world when
    every behavior in use is quiet (raises nothing of its own). *)
Theorem handler_faults_become_Err {S P T : Type}
        (bus : CommandBus.CommandBus S P T) (command : Command.ICommand S P)
        (handler : Command.ICommandHandler S P T) :
  CommandBus.handlers bus !! Command.constructor_name command = Some handler ->
  Forall Contracts.quiet (CommandBus.behaviors bus) ->
  (forall c w, Eff.returns (CommandBus.guarded handler c) w)
  /\ (forall c w w' e,
        handler c w = (Eff.Raised (Js.ThrownError e), w') ->
        CommandBus.guarded handler c w
        = (Eff.Returned (Result.err [Js.message e]), w'))
  /\ (CommandBus.behaviors bus = [] ->
      CommandBus.execute bus command = CommandBus.guarded handler command)
  /\ (forall w, Eff.returns (CommandBus.execute bus command) w).
Proof.
  intros Hh Hquiet. rewrite (command_execute_registered _ _ _ Hh).
  split; [apply guarded_returns|].
  split; [apply guarded_Error|].
  split.
  - intros ->. reflexivity.
  - apply quiet_pipeline_returns; [exact Hquiet|apply guarded_returns].
Qed.

Lemma handler_faults_become_Err_witness :
  Eff.returns
    (CommandBus.execute Fixtures.logging_throwing_bus (Fixtures.TestCommand 5))
    Fixtures.world0
  /\ CommandBus.guarded Fixtures.ThrowingHandler (Fixtures.TestCommand 5)
       Fixtures.world0
     = (Eff.Returned (Result.err ["Unexpected error"]), Fixtures.world0).
Proof.
  destruct (handler_faults_become_Err
              Fixtures.logging_throwing_bus (Fixtures.TestCommand 5)
              Fixtures.ThrowingHandler)
    as (_ & Hmsg & _ & Hret).
  - reflexivity.
  - repeat constructor. apply LoggingCommandBehavior_quiet.
  - split; [apply Hret|].
    apply (Hmsg (Fixtures.TestCommand 5) Fixtures.world0 Fixtures.world0
                (Js.new_Error "Unexpected error")).
    reflexivity.
Defined.

(** The validation behavior in front of the test handler: a negative
    value is reported and the handler leaves no trace in the journal; a
    valid one reaches the handler. *)
Example validating_bus_runs :
  CommandBus.execute Fixtures.validating_bus (Fixtures.TestCommand (-5))
    Fixtures.world0
  = (Eff.Returned (Result.err ["Value must be positive"]), Fixtures.world0)
  /\ CommandBus.execute Fixtures.validating_bus (Fixtures.TestCommand 5)
       Fixtures.world0
     = (Eff.Returned (Result.ok 10%Z),
        {| Eff.console := []; Eff.clock := 0%Z; Eff.app := ["H"] |}).
Proof. split; reflexivity. Qed.

(** C9: for a command with a [validate] method, the validation behavior
    runs it first (the world [w1] it leaves is the one the behavior goes
    on from).  When it reports invalid with an error list, the behavior
    returns [Err] of that list in [w1], whatever [next] is: [next] is not
    run, and nothing is raised.  When it reports valid, or resolves to
    nothing, the behavior is [next command] from [w1].  An invalid report
    without an error list gives [Err(['Validation failed'])]. *)
Theorem validation_short_circuits {S P T : Type}
        (command : Command.ICommand S P)
        (validate : Eff.M S (option Command.Validation))
        (next : Command.ICommand S P -> Eff.M S (Result.Result T (list string)))
        (w w1 : Eff.World S) (validation : option Command.Validation) :
  Command.validate command = Some validate ->
  validate w = (Eff.Returned validation, w1) ->
  (forall errors,
      validation
        = Some {| Command.isValid := false; Command.errors := Some errors |} ->
      Behaviors.ValidationCommandBehavior command next w
      = (Eff.Returned (Result.err errors), w1))
  /\ (validation
        = Some {| Command.isValid := false; Command.errors := None |} ->
      Behaviors.ValidationCommandBehavior command next w
      = (Eff.Returned (Result.err ["Validation failed"]), w1))
  /\ (forall v,
        validation = Some v -> Command.isValid v = true ->
        Behaviors.ValidationCommandBehavior command next w = next command w1)
  /\ (validation = None ->
      Behaviors.ValidationCommandBehavior command next w = next command w1).
Proof.
  intros Hv Hrun.
  unfold Behaviors.ValidationCommandBehavior. rewrite Hv.
  unfold Eff.bind. rewrite Hrun.
  repeat split.
  - by intros errors ->.
  - by intros ->.
  - intros v -> Hvalid. by rewrite Hvalid.
  - by intros ->.
Qed.

Lemma validation_short_circuits_witness :
  Behaviors.ValidationCommandBehavior (Fixtures.TestCommand (-5))
    (CommandBus.guarded Fixtures.TestCommandHandler) Fixtures.world0
  = (Eff.Returned (Result.err ["Value must be positive"]), Fixtures.world0).
Proof.
  destruct (validation_short_circuits
              (T := Z)
              (Fixtures.TestCommand (-5))
              (Eff.ret
                 (Some {| Command.isValid := false;
                          Command.errors := Some ["Value must be positive"] |}))
              (CommandBus.guarded Fixtures.TestCommandHandler)
              Fixtures.world0 Fixtures.world0
              (Some {| Command.isValid := false;
                       Command.errors := Some ["Value must be positive"] |}))
    as (Hinvalid & _).
  - reflexivity.
  - reflexivity.
  - apply Hinvalid. reflexivity.
Defined.

(** ** Order of the behaviors *)

(** C2: on either bus, with the behaviors [A; B] (added by [use] in that
    order) and a registered handler [H], [execute] is [A] applied to the
    message and to a continuation that is [B] applied to the innermost
    stage around [H]: [A] runs first and receives what [B] returns, [B]
    runs second and receives what the innermost stage returns.  The loop
    of [buildPipeline] is the fold of the behaviors from the last to the
    first around that stage. *)
Theorem behaviors_run_in_registration_order {S P T R : Type}
        (cbus : CommandBus.CommandBus S P T) (qbus : QueryBus.QueryBus S P R)
        (A B : Behaviors.CommandBehavior S P T)
        (A' B' : Behaviors.QueryBehavior S P R)
        (H : Command.ICommandHandler S P T) (H' : Query.IQueryHandler S P R)
        (command : Command.ICommand S P) (query : Query.IQuery P) :
  CommandBus.behaviors cbus = [A; B] ->
  CommandBus.handlers cbus !! Command.constructor_name command = Some H ->
  QueryBus.behaviors qbus = [A'; B'] ->
  QueryBus.handlers qbus !! Query.constructor_name query = Some H' ->
  CommandBus.execute cbus command
  = A command (fun c => B c (CommandBus.guarded H))
  /\ QueryBus.execute qbus query
     = A' query (fun q => B' q (fun q' => H' q'))
  /\ CommandBus.buildPipeline cbus command H
     = foldr (fun b next => fun c => b c next)
             (CommandBus.guarded H) (CommandBus.behaviors cbus)
  /\ QueryBus.buildPipeline qbus query H'
     = foldr (fun b next => fun q => b q next)
             (fun q' => H' q') (QueryBus.behaviors qbus).
Proof.
  intros HbC HhC HbQ HhQ.
  rewrite (command_execute_registered _ _ _ HhC).
  rewrite (query_execute_registered _ _ _ HhQ).
  rewrite command_buildPipeline_fold, query_buildPipeline_fold.
  rewrite HbC, HbQ. repeat split.
Qed.

Lemma behaviors_run_in_registration_order_witness :
  CommandBus.execute Fixtures.recording_command_bus (Fixtures.TestCommand 5)
    Fixtures.world0
  = (Eff.Returned (Result.ok 10%Z),
     {| Eff.console := []; Eff.clock := 0%Z;
        Eff.app := ["A:in"; "B:in"; "H"; "B:out"; "A:out"] |})
  /\ QueryBus.execute Fixtures.recording_query_bus (Fixtures.TestQuery 5)
       Fixtures.world0
     = (Eff.Returned 15%Z,
        {| Eff.console := []; Eff.clock := 0%Z;
           Eff.app := ["A:in"; "B:in"; "H"; "B:out"; "A:out"] |}).
Proof.
  destruct (behaviors_run_in_registration_order
              Fixtures.recording_command_bus Fixtures.recording_query_bus
              (Fixtures.RecordingCommandBehavior "A")
              (Fixtures.RecordingCommandBehavior "B")
              (Fixtures.RecordingQueryBehavior "A")
              (Fixtures.RecordingQueryBehavior "B")
              Fixtures.TestCommandHandler Fixtures.TestQueryHandler
              (Fixtures.TestCommand 5) (Fixtures.TestQuery 5))
    as (Hc & Hq & _); try reflexivity.
  rewrite Hc, Hq. split; reflexivity.
Defined.

(** ** The query path *)

(** A behavior that catches what [next] raises is not re-raising. *)
Example swallowing_behavior_hides_fault :
  ~ Contracts.reraising Fixtures.SwallowingQueryBehavior.
Proof.
  intros Hre.
  destruct (Hre (Fixtures.TestQuery 0) Fixtures.ThrowingQueryHandler
                (Js.ThrownError (Js.new_Error "boom"))
                (fun w => ex_intro _ w eq_refl) Fixtures.world0)
    as [w' Hrun].
  discriminate Hrun.
Qed.




(* ===================================================================== *)
(** * Further properties of the code *)
(* ===================================================================== *)

(** ** services/result.ts *)

(** X1: [map] is a functor on the success value, effects included:
    mapping the identity gives the result back in the same world, and
    mapping [g] after mapping [fn] is mapping [fn] followed by [g] (the
    same outcome and the same world, faults of either callback
    included). *)
Theorem map_identity_and_composition {S T U V E : Type}
        (fn : T -> Eff.M S U) (g : U -> Eff.M S V)
        (r : Result.Result T E) (w : Eff.World S) :
  Result.map (fun x => Eff.ret x) r w = (Eff.Returned r, w)
  /\ Eff.bind (Result.map fn r) (Result.map g) w
     = Result.map (fun x => Eff.bind (fn x) g) r w.
Proof.
  destruct r as [v|e]; split; try reflexivity.
  unfold Result.map, Eff.bind, Eff.ret.
  destruct (fn v w) as [[u|t] w1]; [|reflexivity].
  destruct (g u w1) as [[x|t] w2]; reflexivity.
Qed.

(** X2: for every kind of error payload, the fault of [unwrap] on an
    [Err] is a plain [Error] whose message is what [getErrors] gives,
    joined with ", ": the text of a payload that is not an array comes
    out as it is. *)
Theorem unwrap_message_is_joined_getErrors {T E : Type}
        `{Result.ErrorShape E} (error : E) :
  Result.unwrap (T := T) (Result.Err error)
  = Eff.Raised
      (Js.ThrownError
         (Js.new_Error (Js.join ", " (Result.getErrors error)))).
Proof.
  unfold Result.unwrap, Result.Err_unwrap, Result.getErrors.
  destruct (Result.as_array error) as [l|]; reflexivity.
Qed.

(** ** services/command_bus.ts and services/query_bus.ts *)

(** X3: the failure the command bus reports for an unregistered
    identifier carries, as its only message, the message a
    [HandlerNotFoundError('command', identifier)] has. *)
Theorem command_not_found_message_matches_error_class {S P T : Type}
        (bus : CommandBus.CommandBus S P T) (command : Command.ICommand S P)
        (w : Eff.World S) :
  CommandBus.handlers bus !! Command.constructor_name command = None ->
  CommandBus.execute bus command w
  = (Eff.Returned
       (Result.errMessage
          (Js.message
             (Errors.HandlerNotFoundError
                "command" (Command.constructor_name command)))),
     w).
Proof. intros Hnone. unfold CommandBus.execute. by rewrite Hnone. Qed.

Lemma command_not_found_message_matches_error_class_witness :
  CommandBus.execute (T := Z) CommandBus.new Fixtures.Foo Fixtures.world0
  = (Eff.Returned
       (Result.errMessage
          (Js.message (Errors.HandlerNotFoundError "command" "Foo"))),
     Fixtures.world0).
Proof.
  apply (command_not_found_message_matches_error_class
           CommandBus.new Fixtures.Foo Fixtures.world0).
  reflexivity.
Defined.

(** X4: registering a handler under another identifier changes nothing
    for a message: [execute] is the same computation before and after,
    on both buses. *)
Theorem register_elsewhere_keeps_dispatch {S P T R : Type}
        (cbus : CommandBus.CommandBus S P T) (qbus : QueryBus.QueryBus S P R)
        (identifier : string)
        (h : Command.ICommandHandler S P T) (g : Query.IQueryHandler S P R)
        (command : Command.ICommand S P) (query : Query.IQuery P) :
  identifier <> Command.constructor_name command ->
  identifier <> Query.constructor_name query ->
  CommandBus.execute (CommandBus.register identifier h cbus) command
  = CommandBus.execute cbus command
  /\ QueryBus.execute (QueryBus.register identifier g qbus) query
     = QueryBus.execute qbus query.
Proof.
  intros Hc Hq.
  unfold CommandBus.execute, QueryBus.execute,
    CommandBus.buildPipeline, QueryBus.buildPipeline; cbn.
  rewrite !lookup_insert_ne by done. done.
Qed.

Lemma register_elsewhere_keeps_dispatch_witness :
  CommandBus.execute
    (CommandBus.register "Other" Fixtures.ThrowingHandler
       Fixtures.recording_command_bus)
    (Fixtures.TestCommand 5)
  = CommandBus.execute Fixtures.recording_command_bus (Fixtures.TestCommand 5)
  /\ QueryBus.execute
       (QueryBus.register "Other" Fixtures.ThrowingQueryHandler
          Fixtures.recording_query_bus)
       (Fixtures.TestQuery 5)
     = QueryBus.execute Fixtures.recording_query_bus (Fixtures.TestQuery 5).
Proof.
  apply (register_elsewhere_keeps_dispatch
           Fixtures.recording_command_bus Fixtures.recording_query_bus
           "Other" Fixtures.ThrowingHandler Fixtures.ThrowingQueryHandler
           (Fixtures.TestCommand 5) (Fixtures.TestQuery 5));
    discriminate.
Defined.

(** X5: after [register] under the identifier of a message, [execute]
    runs the behaviors of the bus around the handler just registered,
    whatever was registered before; on a bus without behaviors that is
    the guarded handler (command) or the handler itself (query). *)
Theorem register_then_execute_runs_handler {S P T R : Type}
        (cbus : CommandBus.CommandBus S P T) (qbus : QueryBus.QueryBus S P R)
        (h : Command.ICommandHandler S P T) (g : Query.IQueryHandler S P R)
        (command : Command.ICommand S P) (query : Query.IQuery P) :
  CommandBus.execute
    (CommandBus.register (Command.constructor_name command) h cbus) command
  = foldr (fun b next => fun c => b c next)
          (CommandBus.guarded h) (CommandBus.behaviors cbus) command
  /\ QueryBus.execute
       (QueryBus.register (Query.constructor_name query) g qbus) query
     = foldr (fun b next => fun q => b q next)
             (fun q => g q) (QueryBus.behaviors qbus) query
  /\ CommandBus.execute
       (CommandBus.register (Command.constructor_name command) h CommandBus.new)
       command
     = CommandBus.guarded h command
  /\ QueryBus.execute
       (QueryBus.register (Query.constructor_name query) g QueryBus.new) query
     = g query.
Proof.
  repeat split.
  - rewrite (command_execute_registered _ _ h); [done|].
    apply lookup_insert_eq.
  - rewrite (query_execute_registered _ _ g); [done|].
    apply lookup_insert_eq.
  - rewrite (command_execute_registered _ _ h); [done|].
    apply lookup_insert_eq.
  - rewrite (query_execute_registered _ _ g); [done|].
    apply lookup_insert_eq.
Qed.

(** X6: a behavior added by [use] goes innermost: [execute] runs the
    behaviors that were there, in their order, around the new behavior,
    which is handed the stage of the handler as its [next]. *)
Theorem use_adds_innermost {S P T R : Type}
        (cbus : CommandBus.CommandBus S P T) (qbus : QueryBus.QueryBus S P R)
        (b : Behaviors.CommandBehavior S P T) (b' : Behaviors.QueryBehavior S P R)
        (h : Command.ICommandHandler S P T) (g : Query.IQueryHandler S P R)
        (command : Command.ICommand S P) (query : Query.IQuery P) :
  CommandBus.handlers cbus !! Command.constructor_name command = Some h ->
  QueryBus.handlers qbus !! Query.constructor_name query = Some g ->
  CommandBus.execute (CommandBus.use b cbus) command
  = foldr (fun b next => fun c => b c next)
          (fun c => b c (CommandBus.guarded h))
          (CommandBus.behaviors cbus) command
  /\ QueryBus.execute (QueryBus.use b' qbus) query
     = foldr (fun b next => fun q => b q next)
             (fun q => b' q (fun q' => g q'))
             (QueryBus.behaviors qbus) query.
Proof.
  intros Hh Hg. split.
  - rewrite (command_execute_registered _ _ h) by exact Hh.
    cbn. by rewrite foldr_app.
  - rewrite (query_execute_registered _ _ g) by exact Hg.
    cbn. by rewrite foldr_app.
Qed.

Lemma use_adds_innermost_witness :
  CommandBus.execute
    (CommandBus.use (Fixtures.RecordingCommandBehavior "C")
       Fixtures.recording_command_bus)
    (Fixtures.TestCommand 5) Fixtures.world0
  = (Eff.Returned (Result.ok 10%Z),
     {| Eff.console := []; Eff.clock := 0%Z;
        Eff.app := ["A:in"; "B:in"; "C:in"; "H"; "C:out"; "B:out"; "A:out"] |})
  /\ QueryBus.execute
       (QueryBus.use (Fixtures.RecordingQueryBehavior "C")
          Fixtures.recording_query_bus)
       (Fixtures.TestQuery 5) Fixtures.world0
     = (Eff.Returned 15%Z,
        {| Eff.console := []; Eff.clock := 0%Z;
           Eff.app := ["A:in"; "B:in"; "C:in"; "H"; "C:out"; "B:out"; "A:out"] |}).
Proof.
  destruct (use_adds_innermost
              Fixtures.recording_command_bus Fixtures.recording_query_bus
              (Fixtures.RecordingCommandBehavior "C")
              (Fixtures.RecordingQueryBehavior "C")
              Fixtures.TestCommandHandler Fixtures.TestQueryHandler
              (Fixtures.TestCommand 5) (Fixtures.TestQuery 5))
    as (Hc & Hq); try reflexivity.
  rewrite Hc, Hq. split; reflexivity.
Defined.

(** X7: with the validation behavior first in the chain, an invalid
    report ends the dispatch there: [execute] returns [Err] of the
    reported list in the world the validator left, whatever the other
    behaviors and the handler are; none of them runs. *)
Theorem validation_first_ends_dispatch {S P T : Type}
        (bus : CommandBus.CommandBus S P T)
        (rest : list (Behaviors.CommandBehavior S P T))
        (h : Command.ICommandHandler S P T)
        (command : Command.ICommand S P)
        (validate : Eff.M S (option Command.Validation))
        (errors : list string) (w w1 : Eff.World S) :
  CommandBus.behaviors bus = Behaviors.ValidationCommandBehavior :: rest ->
  CommandBus.handlers bus !! Command.constructor_name command = Some h ->
  Command.validate command = Some validate ->
  validate w
  = (Eff.Returned
       (Some {| Command.isValid := false; Command.errors := Some errors |}),
     w1) ->
  CommandBus.execute bus command w = (Eff.Returned (Result.err errors), w1).
Proof.
  intros Hb Hh Hv Hrun.
  rewrite (command_execute_registered _ _ h) by exact Hh.
  rewrite Hb. cbn [foldr].
  unfold Behaviors.ValidationCommandBehavior. rewrite Hv.
  unfold Eff.bind. by rewrite Hrun.
Qed.

Lemma validation_first_ends_dispatch_witness :
  CommandBus.execute
    (CommandBus.use Fixtures.ThrowingCommandBehavior Fixtures.validating_bus)
    (Fixtures.TestCommand (-5)) Fixtures.world0
  = (Eff.Returned (Result.err ["Value must be positive"]), Fixtures.world0).
Proof.
  apply (validation_first_ends_dispatch
           (CommandBus.use Fixtures.ThrowingCommandBehavior
              Fixtures.validating_bus)
           [Fixtures.ThrowingCommandBehavior]
           Fixtures.TestCommandHandler (Fixtures.TestCommand (-5))
           (Eff.ret
              (Some {| Command.isValid := false;
                       Command.errors := Some ["Value must be positive"] |}))
           ["Value must be positive"] Fixtures.world0 Fixtures.world0);
    reflexivity.
Defined.

(** ** services/behaviors.ts: logging *)

(** One run of the command logging behavior, by the outcome of [next]. *)
Lemma LoggingCommandBehavior_run {S P T : Type}
      (command : Command.ICommand S P)
      (next : Command.ICommand S P -> Eff.M S (Result.Result T (list string)))
      (w : Eff.World S) :
  Behaviors.LoggingCommandBehavior command next w
  = match next command
            (Trace.with_line
               (Trace.executing "Command" (Command.constructor_name command))
               w) with
    | (Eff.Returned r, w2) =>
        (Eff.Returned r,
         Trace.with_line
           (match r with
            | Result.Ok _ =>
                Eff.mkLine Eff.LevelLog
                  ("[Command] Completed: " +:+ Command.constructor_name command
                     +:+ Behaviors.timing (Eff.clock w2 - Eff.clock w))
                  Eff.ArgNone
            | Result.Err errors =>
                Eff.mkLine Eff.LevelLog
                  ("[Command] Failed: " +:+ Command.constructor_name command
                     +:+ Behaviors.timing (Eff.clock w2 - Eff.clock w))
                  (Eff.ArgErrors errors)
            end)
           w2)
    | (Eff.Raised t, w2) =>
        (Eff.Returned
           (Result.err
              [match t with
               | Js.ThrownError e => Js.message e
               | Js.ThrownValue _ => "Unknown error"
               end]),
         Trace.with_line
           (Eff.mkLine Eff.LevelError
              ("[Command] Failed: " +:+ Command.constructor_name command
                 +:+ Behaviors.timing (Eff.clock w2 - Eff.clock w))
              (Eff.ArgThrown t))
           w2)
    end.
Proof.
  unfold Behaviors.LoggingCommandBehavior.
  unfold Eff.bind at 1. cbn.
  unfold Eff.try_catch, Eff.bind at 1.
  change (next command _) with
    (next command
       (Trace.with_line
          (Trace.executing "Command" (Command.constructor_name command)) w)).
  destruct (next command _) as [[[v|errors]|t] w2]; reflexivity.
Qed.

(** The command logging behavior returns, whatever [next] does. *)
Lemma LoggingCommandBehavior_always_returns {S P T : Type}
      (command : Command.ICommand S P)
      (next : Command.ICommand S P -> Eff.M S (Result.Result T (list string)))
      (w : Eff.World S) :
  Eff.returns (Behaviors.LoggingCommandBehavior command next) w.
Proof.
  unfold Eff.returns. rewrite LoggingCommandBehavior_run.
  destruct (next command _) as [[r|t] w2]; eauto.
Qed.

(** X8: when the rest of the pipeline returns, the command logging
    behavior returns the same result, [Ok] or [Err], and the world the
    rest left with one more console line: "Completed" for an [Ok],
    "Failed" with the error list for an [Err], timed by the clock. *)
Theorem LoggingCommandBehavior_keeps_result {S P T : Type}
        (command : Command.ICommand S P)
        (next : Command.ICommand S P ->
                Eff.M S (Result.Result T (list string)))
        (w w2 : Eff.World S) (r : Result.Result T (list string)) :
  next command
       (Trace.with_line
          (Trace.executing "Command" (Command.constructor_name command)) w)
  = (Eff.Returned r, w2) ->
  Behaviors.LoggingCommandBehavior command next w
  = (Eff.Returned r,
     Trace.with_line
       (match r with
        | Result.Ok _ =>
            Eff.mkLine Eff.LevelLog
              ("[Command] Completed: " +:+ Command.constructor_name command
                 +:+ Behaviors.timing (Eff.clock w2 - Eff.clock w))
              Eff.ArgNone
        | Result.Err errors =>
            Eff.mkLine Eff.LevelLog
              ("[Command] Failed: " +:+ Command.constructor_name command
                 +:+ Behaviors.timing (Eff.clock w2 - Eff.clock w))
              (Eff.ArgErrors errors)
        end)
       w2).
Proof.
  intros Hnext. rewrite LoggingCommandBehavior_run, Hnext. reflexivity.
Qed.

Lemma LoggingCommandBehavior_keeps_result_witness :
  Behaviors.LoggingCommandBehavior (Fixtures.TestCommand 5)
    Fixtures.FailingHandler Fixtures.world0
  = (Eff.Returned (Result.err ["Handler failed"]),
     {| Eff.console :=
          [Trace.executing "Command" "TestCommand";
           Eff.mkLine Eff.LevelLog "[Command] Failed: TestCommand (0ms)"
             (Eff.ArgErrors ["Handler failed"])];
        Eff.clock := 0%Z; Eff.app := [] |}).
Proof.
  exact (LoggingCommandBehavior_keeps_result
           (Fixtures.TestCommand 5) Fixtures.FailingHandler Fixtures.world0
           (Trace.with_line (Trace.executing "Command" "TestCommand")
              Fixtures.world0)
           (Result.err ["Handler failed"]) eq_refl).
Defined.

(** X9: when the rest of the pipeline raises, the command logging
    behavior does not: it writes the fault to the error console and
    returns [Err] of the message of an [Error], or of 'Unknown error'
    for any other thrown value. *)
Theorem LoggingCommandBehavior_turns_fault_into_Err {S P T : Type}
        (command : Command.ICommand S P)
        (next : Command.ICommand S P ->
                Eff.M S (Result.Result T (list string)))
        (w w2 : Eff.World S) (t : Js.Thrown) :
  next command
       (Trace.with_line
          (Trace.executing "Command" (Command.constructor_name command)) w)
  = (Eff.Raised t, w2) ->
  Behaviors.LoggingCommandBehavior command next w
  = (Eff.Returned
       (Result.err
          [match t with
           | Js.ThrownError e => Js.message e
           | Js.ThrownValue _ => "Unknown error"
           end]),
     Trace.with_line
       (Eff.mkLine Eff.LevelError
          ("[Command] Failed: " +:+ Command.constructor_name command
             +:+ Behaviors.timing (Eff.clock w2 - Eff.clock w))
          (Eff.ArgThrown t))
       w2).
Proof.
  intros Hnext. rewrite LoggingCommandBehavior_run, Hnext. reflexivity.
Qed.

Lemma LoggingCommandBehavior_turns_fault_into_Err_witness :
  Behaviors.LoggingCommandBehavior (Fixtures.TestCommand 5)
    Fixtures.StringThrowingHandler Fixtures.world0
  = (Eff.Returned (Result.err ["Unknown error"]),
     {| Eff.console :=
          [Trace.executing "Command" "TestCommand";
           Eff.mkLine Eff.LevelError "[Command] Failed: TestCommand (0ms)"
             (Eff.ArgThrown (Js.ThrownValue (Js.VString "boom")))];
        Eff.clock := 0%Z; Eff.app := [] |}).
Proof.
  exact (LoggingCommandBehavior_turns_fault_into_Err
           (Fixtures.TestCommand 5) Fixtures.StringThrowingHandler
           Fixtures.world0
           (Trace.with_line (Trace.executing "Command" "TestCommand")
              Fixtures.world0)
           (Js.ThrownValue (Js.VString "boom")) eq_refl).
Defined.

(** X10: with the logging behavior first in the chain of a command bus,
    [execute] returns for every command with a registered handler,
    whatever the behaviors after it and the handler do: a fault of any of
    them comes back as an [Err]. *)
Theorem logging_first_makes_execute_return {S P T : Type}
        (bus : CommandBus.CommandBus S P T)
        (rest : list (Behaviors.CommandBehavior S P T))
        (h : Command.ICommandHandler S P T)
        (command : Command.ICommand S P) (w : Eff.World S) :
  CommandBus.behaviors bus = Behaviors.LoggingCommandBehavior :: rest ->
  CommandBus.handlers bus !! Command.constructor_name command = Some h ->
  exists r w', CommandBus.execute bus command w = (Eff.Returned r, w').
Proof.
  intros Hb Hh.
  rewrite (command_execute_registered _ _ h) by exact Hh.
  rewrite Hb. cbn [foldr].
  apply LoggingCommandBehavior_always_returns.
Qed.

Lemma logging_first_makes_execute_return_witness :
  exists r w',
    CommandBus.execute
      (CommandBus.use Fixtures.ThrowingCommandBehavior
         Fixtures.logging_throwing_bus)
      (Fixtures.TestCommand 5) Fixtures.world0
    = (Eff.Returned r, w').
Proof.
  apply (logging_first_makes_execute_return
           (CommandBus.use Fixtures.ThrowingCommandBehavior
              Fixtures.logging_throwing_bus)
           [Fixtures.ThrowingCommandBehavior] Fixtures.ThrowingHandler
           (Fixtures.TestCommand 5) Fixtures.world0);
    reflexivity.
Defined.

(** One run of the query logging behavior, by the outcome of [next]. *)
Lemma LoggingQueryBehavior_run {S P T : Type}
      (query : Query.IQuery P) (next : Query.IQuery P -> Eff.M S T)
      (w : Eff.World S) :
  Behaviors.LoggingQueryBehavior query next w
  = let (o, w2) :=
      next query
           (Trace.with_line
              (Trace.executing "Query" (Query.constructor_name query)) w) in
    (o,
     Trace.with_line
       (match o with
        | Eff.Returned _ =>
            Eff.mkLine Eff.LevelLog
              ("[Query] Completed: " +:+ Query.constructor_name query
                 +:+ Behaviors.timing (Eff.clock w2 - Eff.clock w))
              Eff.ArgNone
        | Eff.Raised t =>
            Eff.mkLine Eff.LevelError
              ("[Query] Failed: " +:+ Query.constructor_name query
                 +:+ Behaviors.timing (Eff.clock w2 - Eff.clock w))
              (Eff.ArgThrown t)
        end)
       w2).
Proof.
  unfold Behaviors.LoggingQueryBehavior.
  unfold Eff.bind at 1. cbn.
  unfold Eff.try_catch, Eff.bind at 1.
  change (next query _) with
    (next query
       (Trace.with_line
          (Trace.executing "Query" (Query.constructor_name query)) w)).
  destruct (next query _) as [[r|t] w2]; reflexivity.
Qed.

(** X11: the query logging behavior changes no outcome.  When the rest
    of the pipeline returns a value it returns that value, after a
    "Completed" line; when the rest raises it raises that very fault,
    after a "Failed" line on the error console.  The application state
    and the clock are as the rest left them. *)
Theorem LoggingQueryBehavior_keeps_outcome {S P T : Type}
        (query : Query.IQuery P) (next : Query.IQuery P -> Eff.M S T)
        (w w2 : Eff.World S) (o : Eff.Outcome T) :
  next query
       (Trace.with_line
          (Trace.executing "Query" (Query.constructor_name query)) w)
  = (o, w2) ->
  Behaviors.LoggingQueryBehavior query next w
  = (o,
     Trace.with_line
       (match o with
        | Eff.Returned _ =>
            Eff.mkLine Eff.LevelLog
              ("[Query] Completed: " +:+ Query.constructor_name query
                 +:+ Behaviors.timing (Eff.clock w2 - Eff.clock w))
              Eff.ArgNone
        | Eff.Raised t =>
            Eff.mkLine Eff.LevelError
              ("[Query] Failed: " +:+ Query.constructor_name query
                 +:+ Behaviors.timing (Eff.clock w2 - Eff.clock w))
              (Eff.ArgThrown t)
        end)
       w2).
Proof.
  intros Hnext. rewrite LoggingQueryBehavior_run, Hnext. reflexivity.
Qed.

Lemma LoggingQueryBehavior_keeps_outcome_witness :
  Behaviors.LoggingQueryBehavior (Fixtures.TestQuery 5)
    Fixtures.ThrowingQueryHandler Fixtures.world0
  = (Eff.Raised (Js.ThrownError (Js.new_Error "boom")),
     {| Eff.console :=
          [Trace.executing "Query" "TestQuery";
           Eff.mkLine Eff.LevelError "[Query] Failed: TestQuery (0ms)"
             (Eff.ArgThrown (Js.ThrownError (Js.new_Error "boom")))];
        Eff.clock := 0%Z; Eff.app := [] |}).
Proof.
  exact (LoggingQueryBehavior_keeps_outcome
           (Fixtures.TestQuery 5) Fixtures.ThrowingQueryHandler
           Fixtures.world0
           (Trace.with_line (Trace.executing "Query" "TestQuery")
              Fixtures.world0)
           (Eff.Raised (Js.ThrownError (Js.new_Error "boom"))) eq_refl).
Defined.

(** ** services/behaviors.ts: transaction *)

Lemma is_false_spec (flag : option Js.Value) :
  PeerBehaviors.is_false flag = true <-> flag = Some (Js.VBool false).
Proof.
  split; [|by intros ->].
  destruct flag as [[| |[]| |]|]; cbn; congruence.
Qed.

Lemma is_false_not (flag : option Js.Value) :
  flag <> Some (Js.VBool false) -> PeerBehaviors.is_false flag = false.
Proof.
  intros Hne. destruct (PeerBehaviors.is_false flag) eqn:E; [|done].
  apply is_false_spec in E. contradiction.
Qed.

(** X12: the transaction behavior imports the database before it looks
    at the command.  When the import raises, the behavior raises that
    fault for every command, also one with [useTransaction: false], and
    does not run [next]. *)
Theorem Transaction_import_fault_hits_every_command {S P T : Type}
        (import_db : Eff.M S (PeerBehaviors.Db (S := S) (T := T)))
        (useTransaction : P -> option Js.Value)
        (command : Command.ICommand S P)
        (next : Command.ICommand S P ->
                Eff.M S (Result.Result T (list string)))
        (w w1 : Eff.World S) (t : Js.Thrown) :
  import_db w = (Eff.Raised t, w1) ->
  PeerBehaviors.TransactionCommandBehavior import_db useTransaction
    command next w
  = (Eff.Raised t, w1).
Proof.
  intros Himport. unfold PeerBehaviors.TransactionCommandBehavior, Eff.bind.
  by rewrite Himport.
Qed.

Lemma Transaction_import_fault_hits_every_command_witness :
  PeerBehaviors.TransactionCommandBehavior
    (Samples.missing_package "@adonisjs/lucid") Samples.flag_false
    (Fixtures.TestCommand 5) (CommandBus.guarded Fixtures.TestCommandHandler)
    Fixtures.world0
  = (Eff.Raised
       (Js.ThrownError
          (Js.new_Error "Cannot find package '@adonisjs/lucid'")),
     Fixtures.world0).
Proof.
  apply (Transaction_import_fault_hits_every_command
           (Samples.missing_package "@adonisjs/lucid") Samples.flag_false
           (Fixtures.TestCommand 5)
           (CommandBus.guarded Fixtures.TestCommandHandler)
           Fixtures.world0 Fixtures.world0).
  reflexivity.
Defined.

(** X13: once the database is imported, a command whose
    [useTransaction] is the boolean [false] goes to [next] as it is: the
    behavior is [next command], with no transaction scope and no
    conversion of a fault of [next]. *)
Theorem Transaction_opt_out_is_next {S P T : Type}
        (import_db : Eff.M S (PeerBehaviors.Db (S := S) (T := T)))
        (useTransaction : P -> option Js.Value)
        (command : Command.ICommand S P)
        (next : Command.ICommand S P ->
                Eff.M S (Result.Result T (list string)))
        (w w1 : Eff.World S) (db : PeerBehaviors.Db) :
  import_db w = (Eff.Returned db, w1) ->
  useTransaction (Command.fields command) = Some (Js.VBool false) ->
  PeerBehaviors.TransactionCommandBehavior import_db useTransaction
    command next w
  = next command w1.
Proof.
  intros Himport Hflag.
  unfold PeerBehaviors.TransactionCommandBehavior, Eff.bind.
  by rewrite Himport, Hflag.
Qed.

Lemma Transaction_opt_out_is_next_witness :
  PeerBehaviors.TransactionCommandBehavior
    (Eff.ret Samples.failing_db) Samples.flag_false
    (Fixtures.TestCommand 5) Fixtures.ThrowingHandler Fixtures.world0
  = (Eff.Raised (Js.ThrownError (Js.new_Error "Unexpected error")),
     Fixtures.world0).
Proof.
  apply (Transaction_opt_out_is_next
           (Eff.ret Samples.failing_db) Samples.flag_false
           (Fixtures.TestCommand 5) Fixtures.ThrowingHandler
           Fixtures.world0 Fixtures.world0 Samples.failing_db);
    reflexivity.
Defined.

(** X14: once the database is imported, a command that does not carry
    [useTransaction: false] (the property is absent, or is anything but
    the boolean [false]) runs [next] inside [db.transaction]; what the
    scope returns is returned, and a fault out of the scope becomes
    [Err] of its message, or of 'Transaction failed' when it is not an
    [Error].  The behavior raises nothing. *)
Theorem Transaction_scope_turns_fault_into_Err {S P T : Type}
        (import_db : Eff.M S (PeerBehaviors.Db (S := S) (T := T)))
        (useTransaction : P -> option Js.Value)
        (command : Command.ICommand S P)
        (next : Command.ICommand S P ->
                Eff.M S (Result.Result T (list string)))
        (w w1 : Eff.World S) (db : PeerBehaviors.Db) :
  import_db w = (Eff.Returned db, w1) ->
  useTransaction (Command.fields command) <> Some (Js.VBool false) ->
  PeerBehaviors.TransactionCommandBehavior import_db useTransaction
    command next w
  = match PeerBehaviors.transaction db (next command) w1 with
    | (Eff.Returned r, w2) => (Eff.Returned r, w2)
    | (Eff.Raised (Js.ThrownError e), w2) =>
        (Eff.Returned (Result.err [Js.message e]), w2)
    | (Eff.Raised (Js.ThrownValue _), w2) =>
        (Eff.Returned (Result.err ["Transaction failed"]), w2)
    end.
Proof.
  intros Himport Hflag.
  unfold PeerBehaviors.TransactionCommandBehavior, Eff.bind at 1.
  rewrite Himport, (is_false_not _ Hflag).
  unfold Eff.try_catch, Eff.bind.
  destruct (PeerBehaviors.transaction db (next command) w1)
    as [[r|[e|v]] w2]; reflexivity.
Qed.

Lemma Transaction_scope_turns_fault_into_Err_witness :
  PeerBehaviors.TransactionCommandBehavior
    (Eff.ret Samples.failing_db) Samples.flag_zero
    (Fixtures.TestCommand 5) (CommandBus.guarded Fixtures.TestCommandHandler)
    Fixtures.world0
  = (Eff.Returned (Result.err ["deadlock"]), Fixtures.world0).
Proof.
  apply (Transaction_scope_turns_fault_into_Err
           (Eff.ret Samples.failing_db) Samples.flag_zero
           (Fixtures.TestCommand 5)
           (CommandBus.guarded Fixtures.TestCommandHandler)
           Fixtures.world0 Fixtures.world0 Samples.failing_db);
    [reflexivity|discriminate].
Defined.

(** ** services/behaviors.ts: cache *)

(** X15: a query whose [useCache] is the boolean [false] goes to [next]
    as it is, before the cache package is imported: the behavior is
    [next query] even when the import would raise. *)
Theorem Cache_opt_out_is_next {S P T Number : Type}
        (import_cache : Eff.M S (PeerBehaviors.Cache (S := S) (T := T)))
        (useCache : P -> option Js.Value)
        (JSON_stringify : Query.IQuery P -> string)
        (Number_text : Number -> string) (ttl : Number)
        (query : Query.IQuery P) (next : Query.IQuery P -> Eff.M S T) :
  useCache (Query.fields query) = Some (Js.VBool false) ->
  PeerBehaviors.CacheQueryBehavior import_cache useCache JSON_stringify
    Number_text ttl
    query next
  = next query.
Proof.
  intros Hflag. unfold PeerBehaviors.CacheQueryBehavior. by rewrite Hflag.
Qed.

Lemma Cache_opt_out_is_next_witness :
  PeerBehaviors.CacheQueryBehavior
    (Samples.missing_package "@adonisjs/cache") Samples.flag_false
    Samples.stringify Samples.ttl_text Samples.Hour
    (Fixtures.TestQuery 5) Fixtures.TestQueryHandler
  = Fixtures.TestQueryHandler (Fixtures.TestQuery 5).
Proof.
  apply (Cache_opt_out_is_next
           (Samples.missing_package "@adonisjs/cache") Samples.flag_false
           Samples.stringify Samples.ttl_text Samples.Hour
           (Fixtures.TestQuery 5) Fixtures.TestQueryHandler).
  reflexivity.
Defined.

(** X16: on a hit (the cache holds a value other than [null] under the
    key of the query) the behavior returns the cached value after one
    "Hit" line, whatever [next] is: the handler is not run and the cache
    is not written. *)
Theorem Cache_hit_skips_next {S P T Number : Type}
        (import_cache : Eff.M S (PeerBehaviors.Cache (S := S) (T := T)))
        (useCache : P -> option Js.Value)
        (JSON_stringify : Query.IQuery P -> string)
        (Number_text : Number -> string) (ttl : Number)
        (query : Query.IQuery P) (next : Query.IQuery P -> Eff.M S T)
        (w w1 w2 : Eff.World S) (cache : PeerBehaviors.Cache) (value : T) :
  useCache (Query.fields query) <> Some (Js.VBool false) ->
  import_cache w = (Eff.Returned cache, w1) ->
  PeerBehaviors.cache_get cache
    ("query:" +:+ Query.constructor_name query +:+ ":" +:+ JSON_stringify query)
    w1
  = (Eff.Returned (Some value), w2) ->
  PeerBehaviors.CacheQueryBehavior import_cache useCache JSON_stringify
    Number_text ttl
    query next w
  = (Eff.Returned value,
     Trace.with_line
       (Eff.mkLine Eff.LevelLog
          ("[Cache] Hit for: " +:+ Query.constructor_name query) Eff.ArgNone)
       w2).
Proof.
  intros Hflag Himport Hget.
  unfold PeerBehaviors.CacheQueryBehavior.
  rewrite (is_false_not _ Hflag).
  unfold Eff.bind at 1. rewrite Himport.
  unfold Eff.bind at 1. unfold PeerBehaviors.cacheKey. rewrite Hget.
  reflexivity.
Qed.

Lemma Cache_hit_skips_next_witness :
  PeerBehaviors.CacheQueryBehavior
    (Eff.ret (Samples.journal_cache (Some 7%Z))) Samples.flag_absent
    Samples.stringify Samples.ttl_text Samples.Hour
    (Fixtures.TestQuery 5) Fixtures.ThrowingQueryHandler Fixtures.world0
  = (Eff.Returned 7%Z,
     {| Eff.console :=
          [Eff.mkLine Eff.LevelLog "[Cache] Hit for: TestQuery" Eff.ArgNone];
        Eff.clock := 0%Z; Eff.app := [] |}).
Proof.
  apply (Cache_hit_skips_next
           (Eff.ret (Samples.journal_cache (Some 7%Z))) Samples.flag_absent
           Samples.stringify Samples.ttl_text Samples.Hour
           (Fixtures.TestQuery 5) Fixtures.ThrowingQueryHandler
           Fixtures.world0 Fixtures.world0 Fixtures.world0
           (Samples.journal_cache (Some 7%Z)) 7%Z);
    [discriminate|reflexivity|reflexivity].
Defined.

(** X17: on a miss ([get] gives [null]) the behavior runs [next].  A
    fault of [next] is raised as it is and nothing is written to the
    cache.  A value [next] returns is written under the key
    "query:<name>:<JSON>" with the time-to-live "<ttl> seconds", [<ttl>]
    being the text the template literal gives the number, and then
    returned after one "Miss" line; when that write raises, the behavior
    raises the fault of the write although the handler had returned. *)
Theorem Cache_miss_runs_next_then_stores {S P T Number : Type}
        (import_cache : Eff.M S (PeerBehaviors.Cache (S := S) (T := T)))
        (useCache : P -> option Js.Value)
        (JSON_stringify : Query.IQuery P -> string)
        (Number_text : Number -> string) (ttl : Number)
        (query : Query.IQuery P) (next : Query.IQuery P -> Eff.M S T)
        (w w1 w2 : Eff.World S) (cache : PeerBehaviors.Cache) :
  useCache (Query.fields query) <> Some (Js.VBool false) ->
  import_cache w = (Eff.Returned cache, w1) ->
  PeerBehaviors.cache_get cache
    ("query:" +:+ Query.constructor_name query +:+ ":" +:+ JSON_stringify query)
    w1
  = (Eff.Returned None, w2) ->
  PeerBehaviors.CacheQueryBehavior import_cache useCache JSON_stringify
    Number_text ttl
    query next w
  = match next query w2 with
    | (Eff.Raised t, w3) => (Eff.Raised t, w3)
    | (Eff.Returned result, w3) =>
        match PeerBehaviors.cache_set cache
                ("query:" +:+ Query.constructor_name query +:+ ":"
                   +:+ JSON_stringify query)
                result (Number_text ttl +:+ " seconds") w3 with
        | (Eff.Raised t, w4) => (Eff.Raised t, w4)
        | (Eff.Returned _, w4) =>
            (Eff.Returned result,
             Trace.with_line
               (Eff.mkLine Eff.LevelLog
                  ("[Cache] Miss for: " +:+ Query.constructor_name query)
                  Eff.ArgNone)
               w4)
        end
    end.
Proof.
  intros Hflag Himport Hget.
  unfold PeerBehaviors.CacheQueryBehavior.
  rewrite (is_false_not _ Hflag).
  unfold Eff.bind at 1. rewrite Himport.
  unfold Eff.bind at 1. unfold PeerBehaviors.cacheKey. rewrite Hget.
  unfold Eff.bind at 1.
  destruct (next query w2) as [[result|t] w3]; [|reflexivity].
  unfold Eff.bind at 1.
  destruct (PeerBehaviors.cache_set cache _ result _ w3) as [[u|t] w4];
    reflexivity.
Qed.

Lemma Cache_miss_runs_next_then_stores_witness :
  PeerBehaviors.CacheQueryBehavior
    (Eff.ret (Samples.journal_cache None)) Samples.flag_absent
    Samples.stringify Samples.ttl_text Samples.Hour
    (Fixtures.TestQuery 5) Fixtures.TestQueryHandler Fixtures.world0
  = (Eff.Returned 15%Z,
     {| Eff.console :=
          [Eff.mkLine Eff.LevelLog "[Cache] Miss for: TestQuery" Eff.ArgNone];
        Eff.clock := 0%Z;
        Eff.app :=
          ["H"; "set query:TestQuery:{value:5} = 15 for 3600 seconds"] |}).
Proof.
  apply (Cache_miss_runs_next_then_stores
           (Eff.ret (Samples.journal_cache None)) Samples.flag_absent
           Samples.stringify Samples.ttl_text Samples.Hour
           (Fixtures.TestQuery 5) Fixtures.TestQueryHandler
           Fixtures.world0 Fixtures.world0 Fixtures.world0
           (Samples.journal_cache None));
    [discriminate|reflexivity|reflexivity].
Defined.

(** The behavior with a cache that cannot be written: the handler runs
    and returns, and the query still fails. *)
Example read_only_cache_fails_query :
  PeerBehaviors.CacheQueryBehavior
    (Eff.ret Samples.read_only_cache) Samples.flag_absent
    Samples.stringify Samples.ttl_text Samples.Hour
    (Fixtures.TestQuery 5) Fixtures.TestQueryHandler Fixtures.world0
  = (Eff.Raised (Js.ThrownError (Js.new_Error "cache is read-only")),
     {| Eff.console := []; Eff.clock := 0%Z; Eff.app := ["H"] |}).
Proof. reflexivity. Qed.

(** In front of the first colon, two strings without colons agree. *)
Lemma colon_split (a a' b b' : string) :
  ":"%char ∉ Str.chars a -> ":"%char ∉ Str.chars a' ->
  a +:+ ":" +:+ b = a' +:+ ":" +:+ b' ->
  a = a' /\ b = b'.
Proof.
  revert a'. induction a as [|c a IH]; intros [|c' a'] Ha Ha' Heq;
    simpl in Heq.
  - injection Heq as Heq. by subst.
  - injection Heq as Hc _. exfalso. apply Ha'. simpl. rewrite <- Hc. left.
  - injection Heq as Hc _. exfalso. apply Ha. simpl. rewrite Hc. left.
  - injection Heq as Hc Heq. subst c'.
    destruct (IH a') as [-> ->]; [| |exact Heq|done].
    + intros Hin. apply Ha. simpl. by right.
    + intros Hin. apply Ha'. simpl. by right.
Qed.

(** X18: the cache key tells queries apart by class name and
    serialisation: for class names without a colon (every identifier),
    two queries have the same key only if they have the same class name
    and the same JSON text. *)
Theorem cacheKey_separates_queries {P : Type}
        (JSON_stringify : Query.IQuery P -> string)
        (query query' : Query.IQuery P) :
  ":"%char ∉ Str.chars (Query.constructor_name query) ->
  ":"%char ∉ Str.chars (Query.constructor_name query') ->
  PeerBehaviors.cacheKey JSON_stringify query
  = PeerBehaviors.cacheKey JSON_stringify query' ->
  Query.constructor_name query = Query.constructor_name query'
  /\ JSON_stringify query = JSON_stringify query'.
Proof.
  intros Hn Hn' Hkey. unfold PeerBehaviors.cacheKey in Hkey.
  apply (inj (String.append "query:")) in Hkey.
  by apply colon_split.
Qed.

Lemma cacheKey_separates_queries_witness :
  Query.constructor_name (Fixtures.TestQuery 5)
  = Query.constructor_name (Fixtures.TestQuery 5)
  /\ Samples.stringify (Fixtures.TestQuery 5)
     = Samples.stringify (Fixtures.TestQuery 5).
Proof.
  apply (cacheKey_separates_queries Samples.stringify
           (Fixtures.TestQuery 5) (Fixtures.TestQuery 5)).
  - apply (bool_decide_unpack _). vm_compute. exact I.
  - apply (bool_decide_unpack _). vm_compute. exact I.
  - reflexivity.
Defined.

(** ** services/cqrs_provider.ts: the buses the provider binds *)

(** X19: on the command bus the provider builds (validation, logging,
    transaction, in that order), [execute] returns for every command
    with a registered handler, provided the [validate] method of the
    command, if it has one, returns: neither the handler, nor the
    database, nor a missing database package can make it raise. *)
Theorem provider_command_bus_returns {S P T : Type}
        (import_db : Eff.M S (PeerBehaviors.Db (S := S) (T := T)))
        (useTransaction : P -> option Js.Value)
        (h : Command.ICommandHandler S P T)
        (command : Command.ICommand S P) (w : Eff.World S) :
  (forall validate,
      Command.validate command = Some validate -> Eff.returns validate w) ->
  CommandBus.behaviors (CQRSProvider.command_bus import_db useTransaction)
  = [Behaviors.ValidationCommandBehavior;
     Behaviors.LoggingCommandBehavior;
     PeerBehaviors.TransactionCommandBehavior import_db useTransaction]
  /\ Eff.returns
       (CommandBus.execute
          (CommandBus.register (Command.constructor_name command) h
             (CQRSProvider.command_bus import_db useTransaction))
          command)
       w.
Proof.
  intros Hvalidate. split; [reflexivity|].
  rewrite (command_execute_registered _ _ h) by apply lookup_insert_eq.
  cbn [CommandBus.register CommandBus.behaviors CQRSProvider.command_bus
       CommandBus.use CommandBus.new app foldr].
  unfold Behaviors.ValidationCommandBehavior.
  destruct (Command.validate command) as [validate|].
  - destruct (Hvalidate validate eq_refl) as (validation & w1 & Hrun).
    unfold Eff.returns, Eff.bind. rewrite Hrun.
    destruct validation as [v|].
    + destruct (Command.isValid v); cbn [negb].
      * exact (LoggingCommandBehavior_always_returns _ _ _).
      * unfold Eff.ret. eauto.
    + exact (LoggingCommandBehavior_always_returns _ _ _).
  - exact (LoggingCommandBehavior_always_returns _ _ _).
Qed.

Lemma provider_command_bus_returns_witness :
  Eff.returns
    (CommandBus.execute
       (CommandBus.register "TestCommand" Fixtures.ThrowingHandler
          (CQRSProvider.command_bus
             (Samples.missing_package "@adonisjs/lucid") Samples.flag_false))
       (Fixtures.TestCommand 5))
    Fixtures.world0.
Proof.
  apply (provider_command_bus_returns
           (Samples.missing_package "@adonisjs/lucid") Samples.flag_false
           Fixtures.ThrowingHandler (Fixtures.TestCommand 5) Fixtures.world0).
  intros validate Hv. injection Hv as <-.
  exists (Some {| Command.isValid := true; Command.errors := None |}),
    Fixtures.world0.
  reflexivity.
Defined.

(** X20: on the command bus the provider builds, a failing import of
    the database package fails every command that passes validation:
    for a command without a [validate] method, [execute] returns [Err]
    of the message of the import fault (of 'Unknown error' when it is
    not an [Error]), after an "Executing" line and a "Failed" line on
    the error console, and the handler is not run. *)
Theorem provider_command_bus_without_database {S P T : Type}
        (import_db : Eff.M S (PeerBehaviors.Db (S := S) (T := T)))
        (useTransaction : P -> option Js.Value)
        (h : Command.ICommandHandler S P T)
        (command : Command.ICommand S P)
        (w w1 : Eff.World S) (t : Js.Thrown) :
  Command.validate command = None ->
  import_db
    (Trace.with_line
       (Trace.executing "Command" (Command.constructor_name command)) w)
  = (Eff.Raised t, w1) ->
  CommandBus.execute
    (CommandBus.register (Command.constructor_name command) h
       (CQRSProvider.command_bus import_db useTransaction))
    command w
  = (Eff.Returned
       (Result.err
          [match t with
           | Js.ThrownError e => Js.message e
           | Js.ThrownValue _ => "Unknown error"
           end]),
     Trace.with_line
       (Eff.mkLine Eff.LevelError
          ("[Command] Failed: " +:+ Command.constructor_name command
             +:+ Behaviors.timing (Eff.clock w1 - Eff.clock w))
          (Eff.ArgThrown t))
       w1).
Proof.
  intros Hv Himport.
  rewrite (command_execute_registered _ _ h) by apply lookup_insert_eq.
  cbn [CommandBus.register CommandBus.behaviors CQRSProvider.command_bus
       CommandBus.use CommandBus.new app foldr].
  unfold Behaviors.ValidationCommandBehavior at 1. rewrite Hv.
  rewrite LoggingCommandBehavior_run.
  unfold PeerBehaviors.TransactionCommandBehavior, Eff.bind at 1.
  rewrite Himport. reflexivity.
Qed.

Lemma provider_command_bus_without_database_witness :
  CommandBus.execute
    (CommandBus.register "Foo" Fixtures.TestCommandHandler
       (CQRSProvider.command_bus
          (Samples.missing_package "@adonisjs/lucid") Samples.flag_false))
    Fixtures.Foo Fixtures.world0
  = (Eff.Returned (Result.err ["Cannot find package '@adonisjs/lucid'"]),
     {| Eff.console :=
          [Trace.executing "Command" "Foo";
           Eff.mkLine Eff.LevelError "[Command] Failed: Foo (0ms)"
             (Eff.ArgThrown
                (Js.ThrownError
                   (Js.new_Error "Cannot find package '@adonisjs/lucid'")))];
        Eff.clock := 0%Z; Eff.app := [] |}).
Proof.
  exact (provider_command_bus_without_database
           (Samples.missing_package "@adonisjs/lucid") Samples.flag_false
           Fixtures.TestCommandHandler Fixtures.Foo Fixtures.world0
           (Trace.with_line (Trace.executing "Command" "Foo") Fixtures.world0)
           (Js.ThrownError
              (Js.new_Error "Cannot find package '@adonisjs/lucid'"))
           eq_refl eq_refl).
Defined.

(** X21: on the query bus the provider builds, the caller of [execute]
    gets the outcome of the registered handler, value or fault, as the
    handler produced it; the bus adds the two console lines of the
    logging behavior and nothing else. *)
Theorem provider_query_bus_keeps_outcome {S P T : Type}
        (g : Query.IQueryHandler S P T) (query : Query.IQuery P)
        (w w2 : Eff.World S) (o : Eff.Outcome T) :
  g query
    (Trace.with_line
       (Trace.executing "Query" (Query.constructor_name query)) w)
  = (o, w2) ->
  exists line,
    QueryBus.execute
      (QueryBus.register (Query.constructor_name query) g
         CQRSProvider.query_bus)
      query w
    = (o, Trace.with_line line w2).
Proof.
  intros Hrun.
  rewrite (query_execute_registered _ _ g) by apply lookup_insert_eq.
  cbn [QueryBus.register QueryBus.behaviors CQRSProvider.query_bus
       QueryBus.use QueryBus.new app foldr].
  rewrite LoggingQueryBehavior_run.
  unfold QueryBus.direct. rewrite Hrun. eauto.
Qed.

Lemma provider_query_bus_keeps_outcome_witness :
  exists line,
    QueryBus.execute
      (QueryBus.register "TestQuery" Fixtures.TestQueryHandler
         CQRSProvider.query_bus)
      (Fixtures.TestQuery 5) Fixtures.world0
    = (Eff.Returned 15%Z,
       Trace.with_line line
         {| Eff.console := [Trace.executing "Query" "TestQuery"];
            Eff.clock := 0%Z; Eff.app := ["H"] |}).
Proof.
  exact (provider_query_bus_keeps_outcome
           Fixtures.TestQueryHandler (Fixtures.TestQuery 5) Fixtures.world0
           {| Eff.console := [Trace.executing "Query" "TestQuery"];
              Eff.clock := 0%Z; Eff.app := ["H"] |}
           (Eff.Returned 15%Z) eq_refl).
Defined.

(** ** Names: services/handler_base.ts and services/cqrs_provider.ts *)

Lemma chars_app (a b : string) :
  Str.chars (a +:+ b) = (Str.chars a ++ Str.chars b)%list.
Proof.
  unfold Str.chars. induction a as [|c a IH]; simpl; [done|]. by f_equal.
Qed.

Lemma of_chars_app (k l : list ascii) :
  Str.of_chars (k ++ l) = Str.of_chars k +:+ Str.of_chars l.
Proof.
  unfold Str.of_chars. induction k as [|c k IH]; simpl; [done|].
  rewrite IH. reflexivity.
Qed.

Lemma of_chars_chars (s : string) : Str.of_chars (Str.chars s) = s.
Proof. apply String.string_of_list_ascii_of_string. Qed.

Lemma chars_of_chars (l : list ascii) : Str.chars (Str.of_chars l) = l.
Proof. apply String.list_ascii_of_string_of_list_ascii. Qed.

(** [endsWith] holds exactly of the strings that are something followed
    by the suffix. *)
Lemma endsWith_spec (s suffix : string) :
  Str.endsWith s suffix = true <-> exists front, s = front +:+ suffix.
Proof.
  unfold Str.endsWith. rewrite bool_decide_eq_true. split.
  - intros [k Hk]. exists (Str.of_chars k).
    rewrite <- (of_chars_chars s), Hk, of_chars_app.
    by rewrite (of_chars_chars suffix).
  - intros [front ->]. exists (Str.chars front). apply chars_app.
Qed.

Lemma endsWith_app (front suffix : string) :
  Str.endsWith (front +:+ suffix) suffix = true.
Proof. apply endsWith_spec. by exists front. Qed.

Lemma before_suffix_app (front suffix : string) :
  Str.before_suffix (front +:+ suffix) suffix = front.
Proof.
  unfold Str.before_suffix. rewrite chars_app, length_app.
  replace (length (Str.chars front) + length (Str.chars suffix)
           - length (Str.chars suffix))
    with (length (Str.chars front)) by lia.
  rewrite take_app_length. apply of_chars_chars.
Qed.

Lemma replace_suffix_app (front suffix replacement : string) :
  Str.replace_suffix (front +:+ suffix) suffix replacement
  = front +:+ replacement.
Proof.
  unfold Str.replace_suffix.
  by rewrite endsWith_app, before_suffix_app.
Qed.

(** The group of [/^(.+)suffix$/] on a string that ends with the suffix:
    what is in front, unless that is empty or holds a line terminator. *)
Lemma match_before_suffix_app (front suffix : string) :
  Str.match_before_suffix (front +:+ suffix) suffix
  = if bool_decide (front <> "")
       && negb (Str.has_line_terminator (Str.chars front))
    then Some front
    else None.
Proof.
  unfold Str.match_before_suffix.
  rewrite endsWith_app, before_suffix_app.
  destruct front as [|c front]; [reflexivity|].
  rewrite bool_decide_true by discriminate. cbn [andb].
  rewrite of_chars_chars.
  change (Str.chars (String c front))
    with (c :: Str.chars front) at 1.
  cbv beta iota.
  by destruct (Str.has_line_terminator (Str.chars (String c front))).
Qed.

Lemma endsWith_not_both (name : string) :
  Str.endsWith name "CommandHandler" = true ->
  Str.endsWith name "QueryHandler" = false.
Proof.
  intros [front ->]%endsWith_spec.
  unfold Str.endsWith. apply bool_decide_eq_false.
  rewrite chars_app. intros [k Hk].
  change (Str.chars "CommandHandler")
    with (Str.chars "Co" ++ Str.chars "mmandHandler")%list in Hk.
  rewrite app_assoc in Hk.
  apply app_inj_2 in Hk as [_ Hk]; [discriminate Hk|reflexivity].
Qed.

(** X22: a file name is a handler file exactly when it is some stem
    followed by one of the four endings; the test is on the end of the
    name only and is case sensitive. *)
Theorem isHandlerFile_iff_ending (fileName : string) :
  CQRSProvider.isHandlerFile fileName = true
  <-> exists stem ending,
        fileName = stem +:+ ending
        /\ ending ∈ ["_handler.ts"; "_handler.js"; ".handler.ts"; ".handler.js"].
Proof.
  unfold CQRSProvider.isHandlerFile.
  rewrite !orb_true_iff, !endsWith_spec. split.
  - intros [[[[stem ->]|[stem ->]]|[stem ->]]|[stem ->]];
      eexists stem, _; (split; [reflexivity|]); set_solver.
  - intros (stem & ending & -> & Hin).
    repeat (apply elem_of_cons in Hin as [->|Hin]); eauto 6.
    by apply elem_of_nil in Hin.
Qed.

(** X23: by the naming convention, a handler class called
    "<X>CommandHandler" registers under "<X>Command" and one called
    "<X>QueryHandler" under "<X>Query", for every non-empty [X] without
    line terminators (line feed, carriage return, U+2028, U+2029). *)
Theorem handler_base_names_by_convention (X : string) :
  X <> "" ->
  Str.has_line_terminator (Str.chars X) = false ->
  HandlerBase.getCommandName (X +:+ "CommandHandler") = X +:+ "Command"
  /\ HandlerBase.getQueryName (X +:+ "QueryHandler") = X +:+ "Query".
Proof.
  intros Hne Hline.
  unfold HandlerBase.getCommandName, HandlerBase.getQueryName.
  rewrite !match_before_suffix_app, Hline.
  by rewrite bool_decide_true.
Qed.

Lemma handler_base_names_by_convention_witness :
  HandlerBase.getCommandName "UpdateUserProfileCommandHandler"
  = "UpdateUserProfileCommand"
  /\ HandlerBase.getQueryName "UpdateUserProfileQueryHandler"
     = "UpdateUserProfileQuery".
Proof.
  apply (handler_base_names_by_convention "UpdateUserProfile");
    [discriminate|reflexivity].
Defined.

(** X24: a handler class whose name does not end in "CommandHandler"
    (or "QueryHandler" for a query handler) registers under its own
    class name, unchanged. *)
Theorem handler_base_names_fall_back (constructor_name : string) :
  Str.endsWith constructor_name "CommandHandler" = false ->
  Str.endsWith constructor_name "QueryHandler" = false ->
  HandlerBase.getCommandName constructor_name = constructor_name
  /\ HandlerBase.getQueryName constructor_name = constructor_name.
Proof.
  intros Hc Hq.
  unfold HandlerBase.getCommandName, HandlerBase.getQueryName,
    Str.match_before_suffix.
  by rewrite Hc, Hq.
Qed.

Lemma handler_base_names_fall_back_witness :
  HandlerBase.getCommandName "CreateUser" = "CreateUser"
  /\ HandlerBase.getQueryName "CreateUser" = "CreateUser".
Proof.
  apply (handler_base_names_fall_back "CreateUser"); reflexivity.
Defined.

Lemma registration_by_suffix_helper (X : string) :
  CQRSProvider.registration (X +:+ "QueryHandler")
  = CQRSProvider.OnQueryBus (X +:+ "Query")
  /\ CQRSProvider.registration (X +:+ "CommandHandler")
     = CQRSProvider.OnCommandBus (X +:+ "Command").
Proof.
  unfold CQRSProvider.registration. split.
  - by rewrite endsWith_app, replace_suffix_app.
  - rewrite (endsWith_not_both _ (endsWith_app X "CommandHandler")).
    by rewrite endsWith_app, replace_suffix_app.
Qed.

(** X25: discovery registers a class by the end of its name alone:
    "<X>QueryHandler" on the query bus under "<X>Query",
    "<X>CommandHandler" on the command bus under "<X>Command", for every
    [X], the empty one included; no name qualifies for both buses. *)
Theorem registration_by_suffix (X : string) :
  CQRSProvider.registration (X +:+ "QueryHandler")
  = CQRSProvider.OnQueryBus (X +:+ "Query")
  /\ CQRSProvider.registration (X +:+ "CommandHandler")
     = CQRSProvider.OnCommandBus (X +:+ "Command").
Proof. apply registration_by_suffix_helper. Qed.

(** X26: discovery and the handler base class derive the identifier of
    a command handler class "<X>CommandHandler" differently; they give
    the same identifier exactly when [X] is not empty and holds no line
    terminator (line feed, carriage return, U+2028, U+2029).  (The class
    named "CommandHandler" itself is registered
    under "Command" by discovery and under "CommandHandler" by its own
    constructor.) *)
Theorem discovery_agrees_with_base_class (X : string) :
  CQRSProvider.registration (X +:+ "CommandHandler")
  = CQRSProvider.OnCommandBus
      (HandlerBase.getCommandName (X +:+ "CommandHandler"))
  <-> X <> ""
      /\ Str.has_line_terminator (Str.chars X) = false.
Proof.
  rewrite (proj2 (registration_by_suffix_helper X)).
  unfold HandlerBase.getCommandName. rewrite match_before_suffix_app.
  destruct (decide (X = "")) as [->|Hne].
  - cbn. split; [discriminate|]. by intros [[] _].
  - rewrite bool_decide_true by done. cbn [andb].
    destruct (Str.has_line_terminator (Str.chars X)); cbn [negb].
    + split; [|by intros [_ ?]].
      intros [= Heq]. apply (inj (String.append X)) in Heq. discriminate.
    + by split.
Qed.

(** A class name with a line separator in front of the ending: the
    pattern of the base class does not match and the name is kept, while
    discovery replaces the ending. *)
Example line_separator_defeats_pattern :
  HandlerBase.getCommandName
    ("a" +:+ Samples.line_separator +:+ "bCommandHandler")
  = "a" +:+ Samples.line_separator +:+ "bCommandHandler"
  /\ CQRSProvider.registration
       ("a" +:+ Samples.line_separator +:+ "bCommandHandler")
     = CQRSProvider.OnCommandBus
         ("a" +:+ Samples.line_separator +:+ "bCommand").
Proof. split; reflexivity. Qed.

(** X27: a handler object built on the base class is reached by the
    messages of its class: after the constructor of a class
    "<X>CommandHandler" ran on a bus, [execute] of a command of class
    "<X>Command" runs the behaviors of the bus around that handler, and
    likewise for "<X>QueryHandler" and "<X>Query", for every non-empty
    [X] without line terminators. *)
Theorem handler_base_registers_for_its_message {S P T R : Type} (X : string)
        (cbus : CommandBus.CommandBus S P T) (qbus : QueryBus.QueryBus S P R)
        (h : Command.ICommandHandler S P T) (g : Query.IQueryHandler S P R)
        (command : Command.ICommand S P) (query : Query.IQuery P) :
  X <> "" ->
  Str.has_line_terminator (Str.chars X) = false ->
  Command.constructor_name command = X +:+ "Command" ->
  Query.constructor_name query = X +:+ "Query" ->
  CommandBus.execute
    (HandlerBase.CommandHandlerBase (X +:+ "CommandHandler") h cbus) command
  = foldr (fun b next => fun c => b c next)
          (CommandBus.guarded h) (CommandBus.behaviors cbus) command
  /\ QueryBus.execute
       (HandlerBase.QueryHandlerBase (X +:+ "QueryHandler") g qbus) query
     = foldr (fun b next => fun q => b q next)
             (fun q => g q) (QueryBus.behaviors qbus) query.
Proof.
  intros Hne Hline Hc Hq.
  unfold HandlerBase.CommandHandlerBase, HandlerBase.QueryHandlerBase,
    HandlerBase.getCommandName, HandlerBase.getQueryName.
  rewrite !match_before_suffix_app, Hline, bool_decide_true by done.
  cbn [andb negb]. rewrite <- Hc, <- Hq. split.
  - rewrite (command_execute_registered _ _ h); [done|].
    apply lookup_insert_eq.
  - rewrite (query_execute_registered _ _ g); [done|].
    apply lookup_insert_eq.
Qed.

Lemma handler_base_registers_for_its_message_witness :
  CommandBus.execute
    (HandlerBase.CommandHandlerBase "TestCommandHandler"
       Fixtures.TestCommandHandler CommandBus.new)
    (Fixtures.TestCommand 5) Fixtures.world0
  = (Eff.Returned (Result.ok 10%Z),
     {| Eff.console := []; Eff.clock := 0%Z; Eff.app := ["H"] |})
  /\ QueryBus.execute
       (HandlerBase.QueryHandlerBase "TestQueryHandler"
          Fixtures.TestQueryHandler QueryBus.new)
       (Fixtures.TestQuery 5) Fixtures.world0
     = (Eff.Returned 15%Z,
        {| Eff.console := []; Eff.clock := 0%Z; Eff.app := ["H"] |}).
Proof.
  destruct (handler_base_registers_for_its_message
              "Test" CommandBus.new QueryBus.new
              Fixtures.TestCommandHandler Fixtures.TestQueryHandler
              (Fixtures.TestCommand 5) (Fixtures.TestQuery 5))
    as (Hc & Hq); try reflexivity; [discriminate|].
  change ("Test" +:+ "CommandHandler") with "TestCommandHandler" in Hc.
  change ("Test" +:+ "QueryHandler") with "TestQueryHandler" in Hq.
  rewrite Hc, Hq. split; reflexivity.
Defined.

(** ** services/cqrs_provider.ts: discovery *)

(** Induction on a directory tree, with the property for every directory
    of a listing. *)
Lemma Tree_nested_ind (Q : CQRSProvider.Tree -> Prop) :
  Q CQRSProvider.Unreadable ->
  (forall files,
      Forall (fun file =>
                match file with
                | CQRSProvider.FileEntry _ => True
                | CQRSProvider.DirectoryEntry _ below => Q below
                end) files ->
      Q (CQRSProvider.Listing files)) ->
  forall tree, Q tree.
Proof.
  intros Hunreadable Hlisting.
  fix IH 1. intros [|files].
  - exact Hunreadable.
  - apply Hlisting.
    induction files as [|[name|name below] rest IHrest]; constructor;
      auto.
Qed.

Section DiscoveryFacts.
Context {S : Type}.
Variable join : string -> string -> string.
Variable action : string -> Eff.M S unit.

Lemma run_all_app (paths paths' : list string) (w : Eff.World S) :
  Discovery.run_all action (paths ++ paths') w
  = Eff.bind (Discovery.run_all action paths)
             (fun _ => Discovery.run_all action paths') w.
Proof.
  revert w. induction paths as [|path paths IH]; intros w.
  - reflexivity.
  - change (Eff.bind (action path)
              (fun _ => Discovery.run_all action (paths ++ paths')) w
            = Eff.bind
                (Eff.bind (action path)
                   (fun _ => Discovery.run_all action paths))
                (fun _ => Discovery.run_all action paths') w).
    unfold Eff.bind.
    destruct (action path w) as [[u|t] w1]; [exact (IH w1)|reflexivity].
Qed.

Lemma run_all_returns (paths : list string) :
  (forall path w, Eff.returns (action path) w) ->
  forall w, exists w', Discovery.run_all action paths w = (Eff.Returned tt, w').
Proof.
  intros Haction.
  induction paths as [|path paths IH]; intros w.
  - by eexists.
  - change (exists w',
             Eff.bind (action path)
               (fun _ => Discovery.run_all action paths) w
             = (Eff.Returned tt, w')).
    unfold Eff.bind. destruct (Haction path w) as (u & w1 & ->). apply IH.
Qed.

(** A scan returns, whatever it meets. *)
Lemma scan_returns (directory : string) (tree : CQRSProvider.Tree)
      (w : Eff.World S) :
  exists w',
    CQRSProvider.registerHandlersFromDirectory join action directory tree w
    = (Eff.Returned tt, w').
Proof.
  destruct tree as [|files];
    cbn [CQRSProvider.registerHandlersFromDirectory]; unfold Eff.try_catch.
  - by eexists.
  - match goal with |- context [let (_, _) := ?body w in _] =>
      destruct (body w) as [[[]|t] w1] end; by eexists.
Qed.

(** X28: a scan never raises, and a fault inside a subdirectory (an
    unreadable directory, a failing registration) stops at that
    subdirectory: the entries listed after it are scanned all the same,
    from the world the subdirectory left. *)
Theorem discovery_contains_faults (directory name : string)
        (below : CQRSProvider.Tree) (rest : list CQRSProvider.Dirent)
        (w : Eff.World S) :
  Discovery.skipped name = false ->
  exists w1 w2,
    CQRSProvider.registerHandlersFromDirectory join action
      (join directory name) below w
    = (Eff.Returned tt, w1)
    /\ CQRSProvider.registerHandlersFromDirectory join action directory
         (CQRSProvider.Listing (CQRSProvider.DirectoryEntry name below :: rest))
         w
       = CQRSProvider.registerHandlersFromDirectory join action directory
           (CQRSProvider.Listing rest) w1
    /\ CQRSProvider.registerHandlersFromDirectory join action directory
         (CQRSProvider.Listing rest) w1
       = (Eff.Returned tt, w2).
Proof.
  intros Hskip.
  destruct (scan_returns (join directory name) below w) as [w1 Hsub].
  destruct (scan_returns directory (CQRSProvider.Listing rest) w1)
    as [w2 Hrest].
  exists w1, w2. split; [exact Hsub|]. split; [|exact Hrest].
  cbn [CQRSProvider.registerHandlersFromDirectory].
  fold (Discovery.skipped name). rewrite Hskip.
  unfold Eff.try_catch. unfold Eff.bind at 1.
  rewrite Hsub. reflexivity.
Qed.

(** X29: when registering a file never raises, a scan is one
    registration per handler file, in the order of the listings, depth
    first: the files of [handler_files], which leaves out what is in a
    directory named node_modules or tests and what is in a directory
    that cannot be read. *)
Theorem discovery_registers_handler_files (directory : string)
        (tree : CQRSProvider.Tree) (w : Eff.World S) :
  (forall path w, Eff.returns (action path) w) ->
  CQRSProvider.registerHandlersFromDirectory join action directory tree w
  = Discovery.run_all action (Discovery.handler_files join directory tree) w.
Proof.
  intros Haction. revert directory w.
  induction tree as [|files IH] using Tree_nested_ind; intros directory w.
  - reflexivity.
  - cbn [CQRSProvider.registerHandlersFromDirectory Discovery.handler_files].
    unfold Eff.try_catch.
    match goal with
    | |- (let (_, _) := ?body w in _) = Discovery.run_all _ ?paths w =>
        assert (Hbody : forall w, body w = Discovery.run_all action paths w)
    end.
    { clear w. induction IH as [|[name|name below] rest Hfile _ IHrest];
        intros w.
      - reflexivity.
      - destruct (CQRSProvider.isHandlerFile name); [|apply IHrest].
        change (Discovery.run_all action (?p :: ?l))
          with (Eff.bind (action p) (fun _ => Discovery.run_all action l)).
        unfold Eff.bind.
        destruct (action (join directory name) w) as [[u|t] w1]; [|done].
        apply IHrest.
      - fold (Discovery.skipped name).
        destruct (Discovery.skipped name); [apply IHrest|].
        rewrite run_all_app. unfold Eff.bind.
        rewrite Hfile.
        destruct (Discovery.run_all action _ w) as [[u|t] w1]; [|done].
        apply IHrest. }
    rewrite Hbody.
    destruct (run_all_returns
                (Discovery.handler_files join directory
                   (CQRSProvider.Listing files)) Haction w) as [w' Hrun].
    cbn [Discovery.handler_files] in Hrun. rewrite Hrun. reflexivity.
Qed.

(** X30: whatever registering a file does, a scan depends on the
    pruned tree only: directories named node_modules or tests, with all
    they hold, and files that are not handler files can be taken out at
    every depth without changing the scan. *)
Theorem discovery_ignores_pruned_entries (directory : string)
        (tree : CQRSProvider.Tree) (w : Eff.World S) :
  CQRSProvider.registerHandlersFromDirectory join action directory tree w
  = CQRSProvider.registerHandlersFromDirectory join action directory
      (Discovery.prune tree) w.
Proof.
  revert directory w.
  induction tree as [|files IH] using Tree_nested_ind; intros directory w.
  - reflexivity.
  - cbn [CQRSProvider.registerHandlersFromDirectory Discovery.prune].
    unfold Eff.try_catch.
    match goal with
    | |- (let (_, _) := ?body w in _) = (let (_, _) := ?body' w in _) =>
        assert (Hbody : forall w, body w = body' w)
    end.
    { clear w. induction IH as [|[name|name below] rest Hfile _ IHrest];
        intros w.
      - reflexivity.
      - destruct (CQRSProvider.isHandlerFile name) eqn:Hhandler;
          [|apply IHrest].
        rewrite Hhandler. unfold Eff.bind.
        destruct (action (join directory name) w) as [[u|t] w1]; [|done].
        apply IHrest.
      - fold (Discovery.skipped name).
        destruct (Discovery.skipped name) eqn:Hskip; [apply IHrest|].
        fold (Discovery.skipped name). rewrite Hskip. unfold Eff.bind.
        rewrite Hfile.
        destruct (CQRSProvider.registerHandlersFromDirectory _ _ _ _ w)
          as [[u|t] w1]; [|done].
        apply IHrest. }
    by rewrite Hbody.
Qed.

End DiscoveryFacts.

Lemma discovery_contains_faults_witness :
  exists w1 w2,
    CQRSProvider.registerHandlersFromDirectory Samples.join
      Samples.record_file (Samples.join "app" "locked")
      CQRSProvider.Unreadable Fixtures.world0
    = (Eff.Returned tt, w1)
    /\ CQRSProvider.registerHandlersFromDirectory Samples.join
         Samples.record_file "app"
         (CQRSProvider.Listing
            [CQRSProvider.DirectoryEntry "locked" CQRSProvider.Unreadable;
             CQRSProvider.FileEntry "delete_user_handler.ts"])
         Fixtures.world0
       = CQRSProvider.registerHandlersFromDirectory Samples.join
           Samples.record_file "app"
           (CQRSProvider.Listing
              [CQRSProvider.FileEntry "delete_user_handler.ts"])
           w1
    /\ CQRSProvider.registerHandlersFromDirectory Samples.join
         Samples.record_file "app"
         (CQRSProvider.Listing
            [CQRSProvider.FileEntry "delete_user_handler.ts"])
         w1
       = (Eff.Returned tt, w2).
Proof.
  apply (discovery_contains_faults Samples.join Samples.record_file
           "app" "locked" CQRSProvider.Unreadable
           [CQRSProvider.FileEntry "delete_user_handler.ts"] Fixtures.world0).
  reflexivity.
Defined.

Lemma discovery_registers_handler_files_witness :
  CQRSProvider.registerHandlersFromDirectory Samples.join Samples.record_file
    "app" Samples.application Fixtures.world0
  = (Eff.Returned tt,
     {| Eff.console := []; Eff.clock := 0%Z;
        Eff.app :=
          ["app/handlers/create_user_handler.ts";
           "app/handlers/get_user.handler.js";
           "app/handlers/delete_user_handler.ts"] |}).
Proof.
  rewrite (discovery_registers_handler_files Samples.join Samples.record_file
             "app" Samples.application Fixtures.world0).
  - reflexivity.
  - intros path w. eexists tt, _. reflexivity.
Defined.
